(** * RCPSP batch driver ([rcpsp_j90_no_bound_only_time_per_instance.py])

    A shallow embedding of [solve_rcpsp] and of the batch loop of [main].

    The script reads one instance file, extracts durations, demands and
    successors, builds a CP Optimizer model (interval variables, one
    [end_before_start] per successor occurrence, one cumulative constraint
    per resource, [minimize(max(end_of))]), calls the solver with a time
    limit and classifies the answer.

    What is embedded and how:
    - Python values: [int] is [Z]; [str] is [string] (one character per
      code point below 256); [list] is [list] with Python's indexing and
      slicing (negative indices count from the end, slices clamp);
    - exceptions: a computation yields [Return v] or [Raise e]; only
      instances of Python's [Exception] are modelled;
    - effects: [print] appends to the [stdout] of an explicit world, the file
      object is the text that remains to be read, [time.time()] reads the
      next value of a clock;
    - the CP Optimizer library (docplex) is not part of the repository: the
      expressions the script builds are kept as syntax, and [mdl.solve] is a
      variable of the development, a function from the model to a result or
      an exception. *)

From Stdlib Require Import ZArith List String Ascii Bool Lia QArith Qabs.
From Stdlib Require Import DecimalString DecimalZ Permutation Sorted.
From Stdlib Require OrdersEx.
Import ListNotations.

Local Open Scope string_scope.
Local Open Scope list_scope.
Local Open Scope Z_scope.

(* ================================================================== *)
(** ** Python results and exceptions *)

Module Py.

Inductive exc_class : Type :=
| ValueError      (* int() on a token that is not an integer literal *)
| IndexError      (* list index out of range *)
| OSError         (* open() failed *)
| CpoException.   (* anything the CP Optimizer library raises *)

(** An exception object: its class and the text [str(e)] gives. *)
Record exn : Type := Exn { exn_class : exc_class; exn_str : string }.

Inductive result (A : Type) : Type :=
| Return (a : A)
| Raise (e : exn).

Arguments Return {A} a.
Arguments Raise {A} e.

Definition bind {A B} (m : result A) (k : A -> result B) : result B :=
  match m with
  | Return a => k a
  | Raise e => Raise e
  end.

Definition is_return {A} (m : result A) : bool :=
  match m with Return _ => true | Raise _ => false end.

(** A list comprehension whose element expression may raise: elements are
    evaluated left to right and the first exception ends the evaluation. *)
Fixpoint comprehension {A B} (f : A -> result B) (xs : list A) : result (list B) :=
  match xs with
  | [] => Return []
  | x :: xs' =>
      bind (f x) (fun y => bind (comprehension f xs') (fun ys => Return (y :: ys)))
  end.

(** A comprehension with an [if] clause: the condition is evaluated first,
    the element expression only when it holds. *)
Fixpoint comprehension_if {A B} (cond : A -> result bool) (f : A -> result B)
    (xs : list A) : result (list B) :=
  match xs with
  | [] => Return []
  | x :: xs' =>
      bind (cond x) (fun c =>
        if c then
          bind (f x) (fun y =>
            bind (comprehension_if cond f xs') (fun ys => Return (y :: ys)))
        else comprehension_if cond f xs')
  end.

(** [range(n)]: empty when [n <= 0]. *)
Definition range (n : Z) : list Z := map Z.of_nat (seq 0 (Z.to_nat n)).

(** [len(l)] *)
Definition len {A} (l : list A) : Z := Z.of_nat (List.length l).

(** [l[i]]: indices [-len(l) .. len(l)-1] are valid, a negative index counts
    from the end, anything else raises [IndexError]. *)
Definition getitem {A} (l : list A) (i : Z) : result A :=
  let j := if i <? 0 then i + len l else i in
  if (0 <=? j) && (j <? len l) then
    match nth_error l (Z.to_nat j) with
    | Some a => Return a
    | None => Raise (Exn IndexError "list index out of range")
    end
  else Raise (Exn IndexError "list index out of range").

(** The bound of a slice, as CPython's [PySlice_AdjustIndices] clamps it. *)
Definition clamp (n i : Z) : Z :=
  if i <? 0 then Z.max (i + n) 0 else Z.min i n.

(** [l[lo:hi]]; [None] is an omitted bound. A slice never raises. *)
Definition slice {A} (l : list A) (lo hi : option Z) : list A :=
  let n := len l in
  let a := match lo with Some i => clamp n i | None => 0 end in
  let b := match hi with Some i => clamp n i | None => n end in
  firstn (Z.to_nat (b - a)) (skipn (Z.to_nat a) l).

(** [str(n)] for an [int]. *)
Definition str_of_int (n : Z) : string := NilZero.string_of_int (Z.to_int n).

(** *** Text: [readline], [split], [int] *)

Definition newline : ascii := ascii_of_nat 10.

(** [file.readline()] on a text file object whose remaining text is [s]:
    the line with its newline, and the text left; [""] at end of file. *)
Fixpoint readline (s : string) : string * string :=
  match s with
  | EmptyString => (EmptyString, EmptyString)
  | String c rest =>
      if Ascii.eqb c newline then (String c EmptyString, rest)
      else let (l, r) := readline rest in (String c l, r)
  end.

(** [c.isspace()] for a code point below 256. *)
Definition is_space (c : ascii) : bool :=
  let n := nat_of_ascii c in
  ((9 <=? n) && (n <=? 13) || (28 <=? n) && (n <=? 32)
   || (n =? 133) || (n =? 160))%nat.

(** [s.split()]: the maximal runs of non-space characters, in order. *)
Fixpoint split (s : string) : list string :=
  match s with
  | EmptyString => []
  | String c rest =>
      if is_space c then split rest
      else
        match rest with
        | EmptyString => [String c EmptyString]
        | String c' _ =>
            if is_space c' then String c EmptyString :: split rest
            else
              match split rest with
              | tok :: toks => String c tok :: toks
              | [] => [String c EmptyString]
              end
        end
  end.

Definition digit_val (c : ascii) : option Z :=
  let n := nat_of_ascii c in
  if ((48 <=? n) && (n <=? 57))%nat then Some (Z.of_nat (n - 48)) else None.

(** Decimal digits with single underscores between digits, as [int()]
    accepts them; [after_digit] tells that the previous character was a
    digit. *)
Fixpoint digits_val (acc : Z) (after_digit : bool) (s : string) : option Z :=
  match s with
  | EmptyString => if after_digit then Some acc else None
  | String c rest =>
      if Ascii.eqb c "_"%char then
        if after_digit then digits_val acc false rest else None
      else
        match digit_val c with
        | Some d => digits_val (10 * acc + d) true rest
        | None => None
        end
  end.

Definition literal_val (s : string) : option Z :=
  match s with
  | String "+"%char rest => digits_val 0 false rest
  | String "-"%char rest => option_map Z.opp (digits_val 0 false rest)
  | _ => digits_val 0 false s
  end.

(** *** [repr] of a string, for the message of [int] *)

Definition squote : ascii := ascii_of_nat 39.
Definition dquote : ascii := ascii_of_nat 34.
Definition backslash : ascii := ascii_of_nat 92.

Fixpoint contains (c : ascii) (s : string) : bool :=
  match s with
  | EmptyString => false
  | String c' rest => Ascii.eqb c c' || contains c rest
  end.

Definition hex_digit (n : nat) : ascii :=
  if (n <? 10)%nat then ascii_of_nat (48 + n) else ascii_of_nat (87 + n).

(** [c.isprintable()] for a code point below 256. *)
Definition is_printable (c : ascii) : bool :=
  let n := nat_of_ascii c in
  ((32 <=? n) && (n <? 127) || (161 <=? n) && negb (n =? 173))%nat.

(** One character of [repr(s)], [quote] being the quote around it. *)
Definition repr_char (quote c : ascii) : string :=
  let n := nat_of_ascii c in
  if Ascii.eqb c quote || Ascii.eqb c backslash then
    String backslash (String c EmptyString)
  else if (n =? 9)%nat then String backslash "t"
  else if (n =? 10)%nat then String backslash "n"
  else if (n =? 13)%nat then String backslash "r"
  else if is_printable c then String c EmptyString
  else String backslash
         (String "x" (String (hex_digit (n / 16))
                        (String (hex_digit (n mod 16)) EmptyString))).

Fixpoint repr_chars (quote : ascii) (s : string) : string :=
  match s with
  | EmptyString => EmptyString
  | String c rest => repr_char quote c ++ repr_chars quote rest
  end.

(** [repr(s)]: in single quotes, or in double quotes when [s] holds a single
    quote and no double quote. *)
Definition repr (s : string) : string :=
  let quote := if contains squote s && negb (contains dquote s)
               then dquote else squote in
  String quote (repr_chars quote s ++ String quote EmptyString).

(** [int(tok)] for a token of [split] (so without surrounding blanks); the
    message holds at most 200 characters of [repr(tok)]. The limit recent
    interpreters put on the length of a literal is left out. *)
Definition int (tok : string) : result Z :=
  match literal_val tok with
  | Some z => Return z
  | None =>
      Raise (Exn ValueError
               ("invalid literal for int() with base 10: "
                  ++ substring 0 200 (repr tok)))
  end.

End Py.

Declare Scope py_scope.
Delimit Scope py_scope with py.
Notation "x <- m ;; k" := (Py.bind m (fun x => k))
  (at level 61, m at next level, right associativity) : py_scope.

(* ================================================================== *)
(** ** The CP Optimizer interface the script uses *)

Module Cpo.

(** [interval_var(name=..., size=...)] *)
Record interval_var : Type := { iv_name : string; iv_size : Z }.

(** [pulse(var, height)] *)
Record pulse : Type := { pulse_var : interval_var; pulse_height : Z }.

(** The three shapes of expression the script passes to [mdl.add]. *)
Inductive expr : Type :=
| end_before_start (a b : interval_var)
| sum_le (pulses : list pulse) (capacity : Z)
    (* sum(pulse(...) for ...) <= capacity *)
| minimize_max_end_of (vars : list interval_var).
    (* minimize(max(end_of(t) for t in vars)) *)

(** A [CpoModel]: the expressions added, in the order of the [add] calls. *)
Definition CpoModel : Type := list expr.

(** What the script reads from a [CpoSolveResult]: its truth value
    ([is_solution]), [get_solve_status()] and [get_objective_values()]. *)
Record CpoSolveResult : Type := {
  is_solution : bool;
  get_solve_status : string;
  get_objective_values : option (list Z)
}.

(** [mdl.solve(TimeLimit=..., LogVerbosity=...)]: a result, or an exception
    of the library (which also stands for whatever the library refuses when
    the expressions are built, such as a negative size). *)
Definition solver : Type := CpoModel -> Z -> string -> Py.result CpoSolveResult.

End Cpo.

(* ================================================================== *)
(** ** The instance file *)

Import Py Cpo.
Local Open Scope py_scope.

(** What the [with open(...)] block leaves in the local variables. *)
Record instance : Type := {
  NB_TASKS : Z;
  NB_RESOURCES : Z;
  CAPACITIES : list Z;
  TASKS : list (list Z)
}.

(** [[int(v) for v in file.readline().split()]] on the line [l]. *)
Definition int_line (l : string) : result (list Z) := comprehension int (split l).

(** [[[int(v) for v in file.readline().split()] for i in range(NB_TASKS)]]:
    one [readline] per element of the range, [f] being the text left. *)
Fixpoint read_tasks (rng : list Z) (f : string) : result (list (list Z)) :=
  match rng with
  | [] => Return []
  | _ :: rng' =>
      let (l, f') := readline f in
      row <- int_line l ;;
      rows <- read_tasks rng' f' ;;
      Return (row :: rows)
  end.

(** The header: [first_line], [NB_TASKS] and [NB_RESOURCES]. *)
Definition read_header (first_line : list string) : result (Z * Z) :=
  t0 <- getitem first_line 0 ;;
  n <- int t0 ;;
  t1 <- getitem first_line 1 ;;
  r <- int t1 ;;
  Return (n, r).

(** The rest of the block, after the header and the note. *)
Definition read_body (n r : Z) (f : string) : result instance :=
  let (l2, f2) := readline f in
  caps <- int_line l2 ;;
  tasks <- read_tasks (range n) f2 ;;
  Return {| NB_TASKS := n; NB_RESOURCES := r; CAPACITIES := caps; TASKS := tasks |}.

(** ** Extracted data (lines 52-54) *)

Definition DURATIONS (i : instance) : result (list Z) :=
  comprehension (fun t => row <- getitem (TASKS i) t ;; getitem row 0)
    (range (NB_TASKS i)).

Definition DEMANDS (i : instance) : result (list (list Z)) :=
  comprehension
    (fun t => row <- getitem (TASKS i) t ;;
              Return (slice row (Some 1) (Some (NB_RESOURCES i + 1))))
    (range (NB_TASKS i)).

Definition SUCCESSORS (i : instance) : result (list (list Z)) :=
  comprehension
    (fun t => row <- getitem (TASKS i) t ;;
              Return (slice row (Some (NB_RESOURCES i + 2)) None))
    (range (NB_TASKS i)).

(** ** The model (lines 57-74) *)

(** [[interval_var(name=f'T{i + 1}', size=DURATIONS[i]) for i in range(NB_TASKS)]] *)
Definition make_tasks (n : Z) (durations : list Z) : result (list interval_var) :=
  comprehension
    (fun i => d <- getitem durations i ;;
              Return {| iv_name := "T" ++ str_of_int (i + 1); iv_size := d |})
    (range n).

(** [end_before_start(tasks[t], tasks[s - 1]) for t in range(NB_TASKS)
     for s in SUCCESSORS[t]]. The generator is consumed by [mdl.add]: when
    an index fails in it, an exception reaches the handler, but as the
    library raises it again, with a text of its own; what is modelled here
    is that an exception is raised, not its class or text. *)
Definition precedence_constraints (n : Z) (tasks : list interval_var)
    (successors : list (list Z)) : result (list expr) :=
  rows <- comprehension
            (fun t => succs <- getitem successors t ;;
                      comprehension
                        (fun s => a <- getitem tasks t ;;
                                  b <- getitem tasks (s - 1) ;;
                                  Return (end_before_start a b))
                        succs)
            (range n) ;;
  Return (List.concat rows).

(** [DEMANDS[t][r]] *)
Definition demand (demands : list (list Z)) (t r : Z) : result Z :=
  row <- getitem demands t ;; getitem row r.

(** [sum(pulse(tasks[t], DEMANDS[t][r]) for t in range(NB_TASKS)
         if DEMANDS[t][r] > 0) <= CAPACITIES[r] for r in range(NB_RESOURCES)].
    As for the precedence constraints, a failure inside this generator is
    modelled as an exception, whose class and text are the library's. *)
Definition capacity_constraints (n nr : Z) (tasks : list interval_var)
    (demands : list (list Z)) (capacities : list Z) : result (list expr) :=
  comprehension
    (fun r =>
       pulses <- comprehension_if
                   (fun t => d <- demand demands t r ;; Return (0 <? d))
                   (fun t => a <- getitem tasks t ;;
                             d <- demand demands t r ;;
                             Return {| pulse_var := a; pulse_height := d |})
                   (range n) ;;
       c <- getitem capacities r ;;
       Return (sum_le pulses c))
    (range nr).

(** [max(end_of(t) for t in tasks)] (line 71): the variables whose ends the
    makespan is the maximum of. Over no task there is no maximum and
    [ValueError] is raised. *)
Definition max_end_of (tasks : list interval_var) : result (list interval_var) :=
  match tasks with
  | [] => Raise (Exn ValueError "max() arg is an empty sequence")
  | _ :: _ => Return tasks
  end.

(** Lines 52 to 74: from the local variables of the [with] block to the
    model that is solved. *)
Definition build_model (i : instance) : result CpoModel :=
  durations <- DURATIONS i ;;
  demands <- DEMANDS i ;;
  successors <- SUCCESSORS i ;;
  tasks <- make_tasks (NB_TASKS i) durations ;;
  prec <- precedence_constraints (NB_TASKS i) tasks successors ;;
  caps <- capacity_constraints (NB_TASKS i) (NB_RESOURCES i) tasks demands
            (CAPACITIES i) ;;
  makespan <- max_end_of tasks ;;
  Return (prec ++ caps ++ [minimize_max_end_of makespan]).

(* ================================================================== *)
(** ** Effects: standard output, the CSV file, the clock *)

(** [stdout]: the texts printed, oldest first. [csv_rows]: the rows written
    to the result file. [clock_reads]: how many times the clock was read. *)
Record World : Type := {
  stdout : list string;
  csv_rows : list (list string);
  clock_reads : nat
}.

Definition io (A : Type) : Type := World -> result A * World.

Definition io_ret {A} (a : A) : io A := fun w => (Return a, w).

Definition io_bind {A B} (m : io A) (k : A -> io B) : io B :=
  fun w =>
    match m w with
    | (Return a, w') => k a w'
    | (Raise e, w') => (Raise e, w')
    end.

(** A pure expression that may raise, inside effectful code. *)
Definition lift {A} (m : result A) : io A := fun w => (m, w).

(** [try: body  except Exception as e: handler(e)] *)
Definition try_except {A} (body : io A) (handler : exn -> io A) : io A :=
  fun w =>
    match body w with
    | (Return a, w') => (Return a, w')
    | (Raise e, w') => handler e w'
    end.

Definition print (s : string) : io unit :=
  fun w => (Return tt, {| stdout := stdout w ++ [s];
                          csv_rows := csv_rows w;
                          clock_reads := clock_reads w |}).

(** [csv_writer.writerow(row)] followed by [csvfile.flush()]. *)
Definition writerow (row : list string) : io unit :=
  fun w => (Return tt, {| stdout := stdout w;
                          csv_rows := csv_rows w ++ [row];
                          clock_reads := clock_reads w |}).

Declare Scope io_scope.
Delimit Scope io_scope with io.
Notation "x <- m ;; k" := (io_bind m (fun x => k))
  (at level 61, m at next level, right associativity) : io_scope.
Notation "' pat <- m ;; k" :=
  (io_bind m (fun x => match x with pat => k end))
  (at level 61, pat pattern, m at next level, right associativity) : io_scope.
Notation "m ;;; k" := (io_bind m (fun _ => k))
  (at level 61, right associativity) : io_scope.

(** [data_file.name]: the last component of the path. *)
Fixpoint name_from (cur p : string) : string :=
  match p with
  | EmptyString => cur
  | String c rest =>
      if Ascii.eqb c "/"%char then name_from EmptyString rest
      else name_from (cur ++ String c EmptyString) rest
  end.

Definition path_name (p : string) : string := name_from EmptyString p.

(** [f"{x:.2f}"]: [x] rounded to two decimals, ties to even. *)
Definition round_half_even (q : Q) : Z :=
  let n := Qnum q in
  let d := Zpos (Qden q) in
  let f := n / d in
  let r := n mod d in
  match 2 * r ?= d with
  | Lt => f
  | Gt => f + 1
  | Eq => if Z.even f then f else f + 1
  end.

Definition two_digits (n : Z) : string :=
  if n <? 10 then "0" ++ str_of_int n else str_of_int n.

Definition format_2f (x : Q) : string :=
  let c := round_half_even (Qabs x * 100) in
  (if Qnum x <? 0 then "-" else "")
    ++ str_of_int (c / 100) ++ "." ++ two_digits (c mod 100).

(* ================================================================== *)
(** ** [solve_rcpsp] *)

Definition TIME_PER_INSTANCE : Z := 900.

Section Solve.

Local Open Scope io_scope.

(** The solver, the wall clock ([clock k] is what the [k]-th call of
    [time.time()] returns, in seconds) and the file system ([None]: [open]
    fails). *)
Variable cp_solve : solver.
Variable clock : nat -> Q.
Variable fs : string -> option string.

Definition time_time : io Q :=
  fun w => (Return (clock (clock_reads w)),
            {| stdout := stdout w;
               csv_rows := csv_rows w;
               clock_reads := S (clock_reads w) |}).

(** [open(data_file, 'r')]: the text of the file. Every failure is given
    the text of a missing file; another [OSError] has another text. *)
Definition open_read (data_file : string) : result string :=
  match fs data_file with
  | Some text => Return text
  | None =>
      Raise (Exn OSError ("[Errno 2] No such file or directory: '"
                            ++ data_file ++ "'"))
  end.

Definition bound_note (data_file : string) : string :=
  "Ignoring bound value from file " ++ path_name data_file
    ++ " (solving without bounds)".

(** Lines 39 to 49: the [with open(...)] block. *)
Definition read_instance (data_file : string) : io instance :=
  text <- lift (open_read data_file) ;;
  let (l1, f1) := readline text in
  let first_line := split l1 in
  ' (n, r) <- lift (read_header first_line) ;;
  (if 2 <? len first_line then print (bound_note data_file) else io_ret tt) ;;;
  lift (read_body n r f1).

(** [objective_values[0] if objective_values else None] *)
Definition first_objective (objective_values : option (list Z)) : option Z :=
  match objective_values with
  | Some (v :: _) => Some v
  | _ => None
  end.

(** Lines 85 to 110: the status and the makespan of a result. *)
Definition classify (data_file : string) (res : CpoSolveResult)
    : io (option Z * string) :=
  if is_solution res then
    let solve_status := get_solve_status res in
    let objective_value := first_objective (get_objective_values res) in
    status <- (if String.eqb solve_status "Optimal" then
                 print ("Optimal solution found for " ++ path_name data_file) ;;;
                 io_ret "optimal"
               else
                 print ("Feasible solution found for " ++ path_name data_file) ;;;
                 io_ret "feasible") ;;
    match objective_value with
    | Some v => print ("Makespan = " ++ str_of_int v)
    | None => print ("Warning: Solution found but no objective value for "
                       ++ path_name data_file)
    end ;;;
    io_ret (objective_value, status)
  else
    print ("No solution found for " ++ path_name data_file) ;;;
    io_ret (None, "unknown").

(** The body of the [try] (lines 38 to 112). *)
Definition solve_rcpsp_try (data_file : string) (start_time : Q)
    : io (option Z * string * Q) :=
  inst <- read_instance data_file ;;
  mdl <- lift (build_model inst) ;;
  print ("Solving model for " ++ path_name data_file ++ " with "
           ++ str_of_int TIME_PER_INSTANCE ++ " seconds limit (no bounds)...") ;;;
  res <- lift (cp_solve mdl TIME_PER_INSTANCE "Quiet") ;;
  now <- time_time ;;
  let solve_time := (now - start_time)%Q in
  ' (objective_value, status) <- classify data_file res ;;
  io_ret (objective_value, status, solve_time).

(** The handler (lines 114 to 119); the traceback goes to the standard
    error stream, which is not part of the world. *)
Definition solve_rcpsp_except (data_file : string) (start_time : Q) (e : exn)
    : io (option Z * string * Q) :=
  now <- time_time ;;
  let solve_time := (now - start_time)%Q in
  print ("Error solving " ++ data_file ++ ": " ++ exn_str e) ;;;
  io_ret (None, "error", solve_time).

Definition solve_rcpsp (data_file : string) : io (option Z * string * Q) :=
  start_time <- time_time ;;
  try_except (solve_rcpsp_try data_file start_time)
             (solve_rcpsp_except data_file start_time).

End Solve.

(* ================================================================== *)
(** ** The batch loop of [main] (lines 172 to 212) *)

Section Batch.

Local Open Scope io_scope.

(** The function the loop calls for each file. The loop is written over any
    callee, so that its [except] branch can be reached; [main_loop] below
    is the loop over [solve_rcpsp]. *)
Variable solve : string -> io (option Z * string * Q).

(** [str(makespan) if makespan is not None else "N/A"] *)
Definition makespan_str (makespan : option Z) : string :=
  match makespan with
  | Some m => str_of_int m
  | None => "N/A"
  end.

Definition result_row (file_name : string) (r : option Z * string * Q)
    : list string :=
  let '(makespan, status, solve_time) := r in
  [file_name; makespan_str makespan; status; format_2f solve_time].

Definition error_row (file_name : string) : list string :=
  [file_name; "Error"; "error"; "0.00"].

(** The body of the [try] (lines 178 to 198). *)
Definition process_try (data_file file_name : string) : io unit :=
  ' (makespan, status, solve_time) <- solve data_file ;;
  writerow (result_row file_name (makespan, status, solve_time)) ;;;
  print ("Results for " ++ file_name ++ ":") ;;;
  print ("  Model constraint: " ++ makespan_str makespan) ;;;
  print ("  Status: " ++ status) ;;;
  print ("  Solve time: " ++ format_2f solve_time ++ "s").

(** The handler (lines 200 to 212). *)
Definition process_except (file_name : string) (e : exn) : io unit :=
  print ("Error processing " ++ file_name ++ ": " ++ exn_str e) ;;;
  writerow (error_row file_name).

(** [f"\n[{i}/{len(data_files)}] Processing {file_name}..."] *)
Definition progress_line (i total : Z) (file_name : string) : string :=
  String newline "[" ++ str_of_int i ++ "/" ++ str_of_int total
    ++ "] Processing " ++ file_name ++ "...".

(** One iteration: file number [i] of [total]. *)
Definition process_file (i total : Z) (data_file : string) : io unit :=
  let file_name := path_name data_file in
  print (progress_line i total file_name) ;;;
  try_except (process_try data_file file_name) (process_except file_name).

(** [for i, data_file in enumerate(data_files, 1)], from number [i] on. *)
Fixpoint process_files (i total : Z) (data_files : list string) : io unit :=
  match data_files with
  | [] => io_ret tt
  | data_file :: rest =>
      process_file i total data_file ;;;
      process_files (i + 1) total rest
  end.

Definition batch_loop (data_files : list string) : io unit :=
  process_files 1 (len data_files) data_files.




End Batch.


(* ================================================================== *)
(** ** What the expressions mean *)

(** A schedule gives every interval variable its start; the variable is
    present and as long as its size. *)
Definition schedule : Type := interval_var -> Z.

Definition start_of (sigma : schedule) (v : interval_var) : Z := sigma v.

Definition end_of (sigma : schedule) (v : interval_var) : Z :=
  sigma v + iv_size v.

(** [v] runs at the instant [tau]: on [start, end). *)
Definition active (sigma : schedule) (v : interval_var) (tau : Z) : bool :=
  (start_of sigma v <=? tau) && (tau <? end_of sigma v).

Definition zsum (l : list Z) : Z := fold_right Z.add 0 l.

(** The value at [tau] of the cumul function [sum(pulses)]. *)
Definition cumul_at (sigma : schedule) (pulses : list pulse) (tau : Z) : Z :=
  zsum (map (fun p => if active sigma (pulse_var p) tau
                      then pulse_height p else 0) pulses).

Definition satisfies (sigma : schedule) (e : expr) : Prop :=
  match e with
  | end_before_start a b => end_of sigma a <= start_of sigma b
  | sum_le pulses capacity => forall tau, cumul_at sigma pulses tau <= capacity
  | minimize_max_end_of _ => True
  end.

(** [sigma] satisfies every constraint of the model. *)
Definition solution (sigma : schedule) (m : CpoModel) : Prop :=
  Forall (satisfies sigma) m.

(* ================================================================== *)
(** ** Reading a task line by positions

    The line of task [t+1] is
    [duration demand_1 ... demand_R num_successors succ_1 ...]; these
    functions name its fields by position, for the statements below. *)

Definition row (i : instance) (t : Z) : list Z := nth (Z.to_nat t) (TASKS i) [].

Definition row_duration (r : list Z) : Z := nth 0 r 0.

Definition row_demands (nr : Z) (r : list Z) : list Z :=
  firstn (Z.to_nat nr) (skipn 1 r).

Definition row_successors (nr : Z) (r : list Z) : list Z :=
  skipn (Z.to_nat (nr + 2)) r.

(** Task [t+1] of the instance as an interval variable, its demand for
    resource [r+1], its successor ids. *)
Definition task (i : instance) (t : Z) : interval_var :=
  {| iv_name := "T" ++ str_of_int (t + 1); iv_size := row_duration (row i t) |}.

Definition task_demand (i : instance) (t r : Z) : Z :=
  nth (Z.to_nat r) (row_demands (NB_RESOURCES i) (row i t)) 0.

Definition task_successors (i : instance) (t : Z) : list Z :=
  row_successors (NB_RESOURCES i) (row i t).

Definition capacity (i : instance) (r : Z) : Z := nth (Z.to_nat r) (CAPACITIES i) 0.

(** The position Python reads for the index [j] in a list of [n] items. *)
Definition wrap (n j : Z) : Z := if j <? 0 then j + n else j.

(** The shape of a file that follows the format: as many task lines as
    announced, as many capacities as resources, and on each task line a
    duration, [NB_RESOURCES] demands and a count before the successor ids.
    [lo] and [hi] bound the successor ids. *)
Definition row_shaped (nr lo hi : Z) (r : list Z) : Prop :=
  nr + 2 <= len r /\ Forall (fun s => lo <= s <= hi) (row_successors nr r).

Definition shaped (lo hi : Z) (i : instance) : Prop :=
  NB_TASKS i = len (TASKS i) /\
  0 <= NB_RESOURCES i <= len (CAPACITIES i) /\
  Forall (row_shaped (NB_RESOURCES i) lo hi) (TASKS i).

(** An instance of the format whose successor ids are task ids ([1..N])
    and whose demands are not negative. *)
Definition valid_instance (i : instance) : Prop :=
  shaped 1 (NB_TASKS i) i /\
  Forall (fun r => Forall (fun d => 0 <= d) (row_demands (NB_RESOURCES i) r))
         (TASKS i).

(** Two task lines that differ at most in the announced number of
    successors (the token after the [nr] demands). *)
Definition same_but_count (nr : Z) (r r' : list Z) : Prop :=
  r = r' \/
  exists d dem ns ns' succ,
    len dem = nr /\ r = d :: dem ++ ns :: succ /\ r' = d :: dem ++ ns' :: succ.

(** The precedence constraints and the cumulative constraints the script
    adds for an instance, written by position. *)
Definition expected_precedences (i : instance) : list expr :=
  flat_map
    (fun t => map (fun s => end_before_start (task i t)
                              (task i (wrap (NB_TASKS i) (s - 1))))
                  (task_successors i t))
    (range (NB_TASKS i)).

Definition expected_pulses (i : instance) (r : Z) : list pulse :=
  map (fun t => {| pulse_var := task i t; pulse_height := task_demand i t r |})
      (filter (fun t => 0 <? task_demand i t r) (range (NB_TASKS i))).

Definition expected_capacities (i : instance) : list expr :=
  map (fun r => sum_le (expected_pulses i r) (capacity i r))
      (range (NB_RESOURCES i)).

Definition expected_model (i : instance) : CpoModel :=
  expected_precedences i ++ expected_capacities i
    ++ [minimize_max_end_of (map (task i) (range (NB_TASKS i)))].

(** The demand for resource [r+1] of the tasks that run at [tau]. *)
Definition usage (sigma : schedule) (i : instance) (r tau : Z) : Z :=
  zsum (map (fun t => if active sigma (task i t) tau
                      then task_demand i t r else 0)
            (range (NB_TASKS i))).

(* ================================================================== *)
(** ** From the text of a file to the verdict

    The pure part of [solve_rcpsp_try], without the prints and the clock. *)

Definition instance_of_text (text : string) : result instance :=
  let (l1, f1) := readline text in
  h <- read_header (split l1) ;;
  read_body (fst h) (snd h) f1.

Definition model_of_text (text : string) : result CpoModel :=
  i <- instance_of_text text ;; build_model i.

(** What [mdl.solve] answers for the file [data_file], or the exception
    raised on the way to it. *)
Definition solve_outcome (cp_solve : solver) (fs : string -> option string)
    (data_file : string) : result CpoSolveResult :=
  text <- open_read fs data_file ;;
  m <- model_of_text text ;;
  cp_solve m TIME_PER_INSTANCE "Quiet".

(** The makespan and the status [solve_rcpsp] returns for an outcome. *)
Definition verdict (o : result CpoSolveResult) : option Z * string :=
  match o with
  | Raise _ => (None, "error")
  | Return res =>
      if is_solution res then
        (first_objective (get_objective_values res),
         if String.eqb (get_solve_status res) "Optimal"
         then "optimal" else "feasible")
      else (None, "unknown")
  end.

(* ================================================================== *)
(** ** Sample files, solvers and clocks

    Small inputs on which the statements below are instantiated. *)

Module Samples.

(** A text file from its lines. *)
Fixpoint text_of_lines (ls : list string) : string :=
  match ls with
  | [] => EmptyString
  | l :: ls' => l ++ String newline (text_of_lines ls')
  end.

(** Two tasks, one resource of capacity 1; task 1 (3 time units) comes
    before task 2 (2 time units). *)
Definition two_tasks : string :=
  text_of_lines ["2 1"; "1"; "3 1 1 2"; "2 1 0"].

(** The same instance with a bound on the first line. *)
Definition two_tasks_bound : string :=
  text_of_lines ["2 1 5"; "1"; "3 1 1 2"; "2 1 0"].

(** The same instance, the first task line announcing five successors. *)
Definition two_tasks_miscounted : string :=
  text_of_lines ["2 1"; "1"; "3 1 5 2"; "2 1 0"].

(** Task 1 names the successor 0. *)
Definition successor_zero : string :=
  text_of_lines ["2 1"; "1"; "3 1 1 0"; "2 1 0"].

(** Task 1 names the successor 3, and there are two tasks. *)
Definition successor_three : string :=
  text_of_lines ["2 1"; "1"; "3 1 1 3"; "2 1 0"].

(** One task that asks 3 of a resource of capacity 2. *)
Definition demand_over_capacity : string :=
  text_of_lines ["1 1"; "2"; "4 3 0"].

Definition two_tasks_instance : instance :=
  {| NB_TASKS := 2; NB_RESOURCES := 1; CAPACITIES := [1];
     TASKS := [[3; 1; 1; 2]; [2; 1; 0]] |}.

Definition two_tasks_miscounted_instance : instance :=
  {| NB_TASKS := 2; NB_RESOURCES := 1; CAPACITIES := [1];
     TASKS := [[3; 1; 5; 2]; [2; 1; 0]] |}.

Definition successor_zero_instance : instance :=
  {| NB_TASKS := 2; NB_RESOURCES := 1; CAPACITIES := [1];
     TASKS := [[3; 1; 1; 0]; [2; 1; 0]] |}.

Definition successor_three_instance : instance :=
  {| NB_TASKS := 2; NB_RESOURCES := 1; CAPACITIES := [1];
     TASKS := [[3; 1; 1; 3]; [2; 1; 0]] |}.

Definition demand_over_capacity_instance : instance :=
  {| NB_TASKS := 1; NB_RESOURCES := 1; CAPACITIES := [2];
     TASKS := [[4; 3; 0]] |}.

(** The files of a small [data] directory. *)
Definition sample_fs (p : string) : option string :=
  if String.eqb p "data/j9010_1.data" then Some two_tasks
  else if String.eqb p "data/j9010_2.data" then Some two_tasks_bound
  else if String.eqb p "data/j9010_3.data" then Some successor_zero
  else if String.eqb p "data/j9010_4.data" then Some successor_three
  else if String.eqb p "data/j9010_5.data" then Some demand_over_capacity
  else if String.eqb p "data/j9010_6.data" then Some two_tasks_miscounted
  else None.

(** A solver that proves the makespan 5 optimal, as CP Optimizer does for
    [two_tasks] and for [successor_zero] (both put task 1 before task 2). *)
Definition proves_optimal_5 : solver :=
  fun _ _ _ => Return {| is_solution := true;
                         get_solve_status := "Optimal";
                         get_objective_values := Some [5] |}.

(** A solver that reports the model infeasible, as CP Optimizer does for
    [demand_over_capacity]: no solution, no objective value. *)
Definition reports_infeasible : solver :=
  fun _ _ _ => Return {| is_solution := false;
                         get_solve_status := "Infeasible";
                         get_objective_values := None |}.

(** A clock that advances by one second at every reading. *)
Definition ticking (k : nat) : Q := inject_Z (Z.of_nat k).

Definition fresh : World := {| stdout := []; csv_rows := []; clock_reads := 0 |}.

(** A callee of the batch loop that raises on one file. *)
Definition fails_on (bad : string) : string -> io (option Z * string * Q) :=
  fun data_file w =>
    if String.eqb data_file bad
    then (Raise (Exn CpoException "solver process died"), w)
    else (Return (Some 5, "optimal", 1%Q), w).

End Samples.

(* ================================================================== *)
(** ** Lines of a text *)

(** The text left after [k] calls of [readline]. *)
Fixpoint skip_lines (k : nat) (f : string) : string :=
  match k with
  | O => f
  | S k' => skip_lines k' (snd (readline f))
  end.

(** What the call number [k] of [readline] returns (counting from 0): in an
    instance file, line 0 is the header, line 1 the capacities and line
    [2 + t] the line of task [t+1]. *)
Definition line_at (k : nat) (f : string) : string :=
  fst (readline (skip_lines k f)).

(** The value of the digits [d] read after the value [acc]. *)
Fixpoint uint_val (acc : Z) (d : Decimal.uint) : Z :=
  match d with
  | Decimal.Nil => acc
  | Decimal.D0 d' => uint_val (10 * acc + 0) d'
  | Decimal.D1 d' => uint_val (10 * acc + 1) d'
  | Decimal.D2 d' => uint_val (10 * acc + 2) d'
  | Decimal.D3 d' => uint_val (10 * acc + 3) d'
  | Decimal.D4 d' => uint_val (10 * acc + 4) d'
  | Decimal.D5 d' => uint_val (10 * acc + 5) d'
  | Decimal.D6 d' => uint_val (10 * acc + 6) d'
  | Decimal.D7 d' => uint_val (10 * acc + 7) d'
  | Decimal.D8 d' => uint_val (10 * acc + 8) d'
  | Decimal.D9 d' => uint_val (10 * acc + 9) d'
  end.

(* ================================================================== *)
(** ** [main], from the listing of the directory to the last row (lines
    122 to 214)

    The upload that follows (lines 216 to 226) uses a storage client the
    file does not import and is left out. *)

(** The components of a relative path, for the order of [Path] objects:
    two paths compare as the lists of their components, and two components
    as strings, code point by code point. *)
Fixpoint parts_from (cur p : string) : list string :=
  match p with
  | EmptyString => match cur with EmptyString => [] | _ => [cur] end
  | String c rest =>
      if Ascii.eqb c "/"%char then
        match cur with
        | EmptyString => parts_from EmptyString rest
        | _ => cur :: parts_from EmptyString rest
        end
      else parts_from (cur ++ String c EmptyString) rest
  end.

Definition path_parts (p : string) : list string := parts_from EmptyString p.

(** [a < b] on lists of strings. *)
Fixpoint parts_lt (a b : list string) : bool :=
  match a, b with
  | _, [] => false
  | [], _ :: _ => true
  | x :: a', y :: b' =>
      match OrdersEx.String_as_OT.compare x y with
      | Lt => true
      | Gt => false
      | Eq => parts_lt a' b'
      end
  end.

(** [p < q] on [Path] objects. *)
Definition path_lt (p q : string) : bool := parts_lt (path_parts p) (path_parts q).

(** [all_data_files.sort()]: the stable sort by [<]; each path is put after
    the paths that are not greater. *)
Fixpoint insert_path (x : string) (l : list string) : list string :=
  match l with
  | [] => [x]
  | y :: l' => if path_lt x y then x :: l else y :: insert_path x l'
  end.

Definition sort_paths (l : list string) : list string :=
  fold_left (fun sorted x => insert_path x sorted) l [].

(** No path is greater than one that comes after it. *)
Definition in_order : list string -> Prop :=
  StronglySorted (fun p q => path_lt q p = false).

Definition start_file : string := "j9010_1.data".

(** The loop of lines 148 to 151: the index of the first path whose name is
    [start_file], [None] when the loop ends without a [break]. *)
Fixpoint find_start (files : list string) : option nat :=
  match files with
  | [] => None
  | file_path :: rest =>
      if String.eqb (path_name file_path) start_file then Some O
      else option_map S (find_start rest)
  end.

Definition header_row : list string :=
  ["file name"; "Model constraint"; "Status"; "Solve time (second)"].

(** [open(output_file, 'w', newline='')]: the result file is emptied. *)
Definition open_csv : io unit :=
  fun w => (Return tt, {| stdout := stdout w;
                          csv_rows := [];
                          clock_reads := clock_reads w |}).

Section Main.

Local Open Scope io_scope.

Variable solve : string -> io (option Z * string * Q).

(** [os.getcwd()] and [os.listdir()]. *)
Variable getcwd : string.
Variable listdir : list string.

(** [for item in os.listdir(): print(f"  {item}")] *)
Fixpoint print_items (items : list string) : io unit :=
  match items with
  | [] => io_ret tt
  | item :: rest => print ("  " ++ item) ;;; print_items rest
  end.

(** [main] up to line 214; [globbed] is [list(data_dir.glob("*.data"))]. *)
Definition main_before_upload (globbed : list string) : io unit :=
  match globbed with
  | [] =>
      print "Warning: No .data files found in data" ;;;
      print ("Current directory: " ++ getcwd) ;;;
      print "Directory contents:" ;;;
      print_items listdir
  | _ :: _ =>
      let all_data_files := sort_paths globbed in
      match find_start all_data_files with
      | None =>
          print ("Error: Starting file " ++ start_file
                   ++ " not found in data directory")
      | Some start_index =>
          let data_files :=
            slice all_data_files (Some (Z.of_nat start_index)) None in
          print ("Found " ++ str_of_int (len all_data_files)
                   ++ " total .data files") ;;;
          print ("Processing " ++ str_of_int (len data_files)
                   ++ " files starting from " ++ start_file) ;;;
          print ("Using " ++ str_of_int 900
                   ++ " seconds time limit per instance") ;;;
          print "Solving WITHOUT using any provided bounds" ;;;
          open_csv ;;;
          writerow header_row ;;;
          batch_loop solve data_files ;;;
          print (String newline
                   "All done! Results written to result/j90_no_bound_900s.csv")
      end
  end.

End Main.



(** ** More sample files and solvers *)

Module MoreSamples.

(** [two_tasks] followed by lines the header does not announce. *)
Definition two_tasks_trailing : string :=
  Samples.text_of_lines ["2 1"; "1"; "3 1 1 2"; "2 1 0"; "9 9 9"; "end"].

Definition trailing_fs (p : string) : option string :=
  if String.eqb p "data/j9010_1.data" then Some Samples.two_tasks
  else if String.eqb p "data/j9010_7.data" then Some two_tasks_trailing
  else None.

(** A solver whose solution carries no objective value. *)
Definition solution_without_value : solver :=
  fun _ _ _ => Return {| is_solution := true;
                         get_solve_status := "Feasible";
                         get_objective_values := Some [] |}.


(** [two_tasks] with a word where the second task line has its demand. *)
Definition two_tasks_bad_token : string :=
  Samples.text_of_lines ["2 1"; "1"; "3 1 1 2"; "2 one 0"].

Definition bad_token_fs (p : string) : option string :=
  if String.eqb p "data/j9010_8.data" then Some two_tasks_bad_token else None.

(** The listing of a [data] directory, as [glob] may give it. *)
Definition listing : list string :=
  ["data/j9010_2.data"; "data/j301_1.data"; "data/j9010_1.data";
   "data/j9011_1.data"].

End MoreSamples.

(* ================================================================== *)
(** * Properties *)

(** ** The Python primitives on small inputs *)

Example getitem_from_the_end :
  getitem [10; 20; 30] (-1) = Return 30 /\
  getitem [10; 20; 30] (-3) = Return 10 /\
  is_return (getitem [10; 20; 30] 3) = false /\
  is_return (getitem [10; 20; 30] (-4)) = false.
Proof. repeat split. Qed.

Example slice_clamps :
  slice [1; 2; 3; 4; 5] (Some 1) (Some 3) = [2; 3] /\
  slice [1; 2; 3] (Some 5) None = [] /\
  slice [1; 2; 3] (Some 1) (Some 9) = [2; 3] /\
  slice [1; 2; 3; 4] (Some 1) (Some (-1)) = [2; 3].
Proof. repeat split. Qed.

Example split_drops_blanks :
  split ("  3 1" ++ String (ascii_of_nat 9) "1 2 " ++ String newline "")%string
  = ["3"; "1"; "1"; "2"].
Proof. reflexivity. Qed.

Example int_literals :
  int "42" = Return 42 /\ int "-7" = Return (-7) /\ int "+007" = Return 7 /\
  int "1_000" = Return 1000 /\
  is_return (int "1__0") = false /\ is_return (int "3.5") = false /\
  is_return (int "-") = false /\ is_return (int "_1") = false.
Proof. repeat split. Qed.

Example readline_steps :
  readline Samples.two_tasks
  = (("2 1" ++ String newline "")%string,
     Samples.text_of_lines ["1"; "3 1 1 2"; "2 1 0"]) /\
  readline "" = ("", "").
Proof. repeat split. Qed.

Example format_2f_rounds :
  format_2f (1 # 8) = "0.12" /\ format_2f (3 # 8) = "0.38" /\
  format_2f (12345 # 100) = "123.45" /\ format_2f (5 # 2) = "2.50".
Proof. repeat split. Qed.

(** ** Python lists *)

Section ListFacts.

Context {A B : Type}.

Lemma comprehension_map (f : A -> result B) (g : A -> B) (xs : list A) :
  (forall x, In x xs -> f x = Return (g x)) ->
  comprehension f xs = Return (map g xs).
Proof.
  induction xs as [|x xs IH]; intros H; simpl.
  - reflexivity.
  - rewrite (H x (or_introl eq_refl)). simpl.
    rewrite IH by (intros y Hy; apply H; right; exact Hy).
    reflexivity.
Qed.

Lemma comprehension_ext (f g : A -> result B) (xs : list A) :
  (forall x, In x xs -> f x = g x) ->
  comprehension f xs = comprehension g xs.
Proof.
  induction xs as [|x xs IH]; intros H; simpl.
  - reflexivity.
  - rewrite (H x (or_introl eq_refl)).
    rewrite IH by (intros y Hy; apply H; right; exact Hy).
    reflexivity.
Qed.

Lemma comprehension_if_filter (cond : A -> result bool) (c : A -> bool)
    (f : A -> result B) (g : A -> B) (xs : list A) :
  (forall x, In x xs -> cond x = Return (c x)) ->
  (forall x, In x xs -> c x = true -> f x = Return (g x)) ->
  comprehension_if cond f xs = Return (map g (filter c xs)).
Proof.
  induction xs as [|x xs IH]; intros Hc Hf; simpl.
  - reflexivity.
  - rewrite (Hc x (or_introl eq_refl)). simpl.
    assert (IH' : comprehension_if cond f xs = Return (map g (filter c xs))).
    { apply IH; intros y Hy; [apply Hc | apply Hf]; right; exact Hy. }
    destruct (c x) eqn:E.
    + rewrite (Hf x (or_introl eq_refl) E). simpl. rewrite IH'. reflexivity.
    + exact IH'.
Qed.

Lemma comprehension_if_ext (cond cond' : A -> result bool)
    (f f' : A -> result B) (xs : list A) :
  (forall x, In x xs -> cond x = cond' x) ->
  (forall x, In x xs -> f x = f' x) ->
  comprehension_if cond f xs = comprehension_if cond' f' xs.
Proof.
  induction xs as [|x xs IH]; intros Hc Hf; simpl.
  - reflexivity.
  - rewrite (Hc x (or_introl eq_refl)), (Hf x (or_introl eq_refl)).
    rewrite IH; [reflexivity | |]; intros y Hy; [apply Hc | apply Hf];
      right; exact Hy.
Qed.

(** When a comprehension returns, every element expression returned. *)
Lemma comprehension_Return (f : A -> result B) (xs : list A) (ys : list B) :
  comprehension f xs = Return ys ->
  Forall2 (fun x y => f x = Return y) xs ys.
Proof.
  revert ys; induction xs as [|x xs IH]; intros ys H; simpl in H.
  - inversion H. constructor.
  - destruct (f x) as [y|e] eqn:Ex; simpl in H; [|discriminate].
    destruct (comprehension f xs) as [ys'|e] eqn:Exs; simpl in H; [|discriminate].
    inversion H; subst. constructor; [exact Ex | apply IH; reflexivity].
Qed.

End ListFacts.

Lemma in_range (n t : Z) : In t (range n) <-> 0 <= t < n.
Proof.
  unfold range. rewrite in_map_iff. split.
  - intros [k [<- Hk]]. apply in_seq in Hk. lia.
  - intros H. exists (Z.to_nat t). split; [lia | apply in_seq; lia].
Qed.

Lemma length_range (n : Z) : List.length (range n) = Z.to_nat n.
Proof. unfold range. rewrite length_map, length_seq. reflexivity. Qed.

Lemma nth_map_seq {B} (f : nat -> B) (n k : nat) (d : B) :
  (k < n)%nat -> nth k (map f (seq 0 n)) d = f k.
Proof.
  intros H.
  rewrite nth_indep with (d' := f 0%nat) by (rewrite length_map, length_seq; lia).
  rewrite map_nth, seq_nth by lia. reflexivity.
Qed.

Lemma nth_map_range {B} (g : Z -> B) (n k : Z) (d : B) :
  0 <= k < n -> nth (Z.to_nat k) (map g (range n)) d = g k.
Proof.
  intros H. unfold range. rewrite map_map, nth_map_seq by lia.
  f_equal. lia.
Qed.

Lemma range_len_nth {A} (l : list A) (d : A) :
  map (fun t => nth (Z.to_nat t) l d) (range (len l)) = l.
Proof.
  apply nth_ext with (d := d) (d' := d).
  - rewrite length_map, length_range. unfold len. lia.
  - intros k Hk. rewrite length_map, length_range in Hk. unfold len in Hk.
    rewrite <- (Nat2Z.id k) at 1.
    rewrite nth_map_range by (unfold len; lia).
    rewrite Nat2Z.id. reflexivity.
Qed.

Lemma wrap_id (n t : Z) : 0 <= t -> wrap n t = t.
Proof. intros H. unfold wrap. destruct (Z.ltb_spec t 0); [lia | reflexivity]. Qed.

(** [l[j]] for an index in [-len(l) .. len(l)-1]. *)
Lemma getitem_wrap {A} (l : list A) (d : A) (j : Z) :
  - len l <= j < len l ->
  getitem l j = Return (nth (Z.to_nat (wrap (len l) j)) l d).
Proof.
  intros H. unfold getitem, wrap.
  set (k := if j <? 0 then j + len l else j).
  assert (Hk : 0 <= k < len l) by (subst k; destruct (Z.ltb_spec j 0); lia).
  replace ((0 <=? k) && (k <? len l)) with true
    by (symmetry; apply andb_true_iff; split; [apply Z.leb_le | apply Z.ltb_lt]; lia).
  destruct (nth_error l (Z.to_nat k)) as [a|] eqn:E.
  - rewrite (nth_error_nth l (Z.to_nat k) d E). reflexivity.
  - apply nth_error_None in E. unfold len in Hk. lia.
Qed.

Lemma getitem_nth {A} (l : list A) (d : A) (j : Z) :
  0 <= j < len l -> getitem l j = Return (nth (Z.to_nat j) l d).
Proof.
  intros H. rewrite (getitem_wrap l d) by lia.
  unfold wrap. destruct (Z.ltb_spec j 0); [lia | reflexivity].
Qed.

(** [l[j]] outside that range raises. *)
Lemma getitem_out_of_range {A} (l : list A) (j : Z) :
  j < - len l \/ len l <= j ->
  getitem l j = Raise (Exn IndexError "list index out of range").
Proof.
  intros H. unfold getitem.
  set (k := if j <? 0 then j + len l else j).
  assert (Hk : k < 0 \/ len l <= k) by (subst k; destruct (Z.ltb_spec j 0); lia).
  replace ((0 <=? k) && (k <? len l)) with false; [reflexivity|].
  symmetry. apply andb_false_iff.
  destruct Hk; [left; apply Z.leb_gt | right; apply Z.ltb_ge]; lia.
Qed.

(** Indexing the list a comprehension over [range(n)] produced. *)
Lemma getitem_map_range {B} (g : Z -> B) (n j : Z) :
  - n <= j < n ->
  getitem (map g (range n)) j = Return (g (wrap n j)).
Proof.
  intros H.
  assert (Hlen : len (map g (range n)) = n).
  { unfold len. rewrite length_map, length_range. lia. }
  rewrite (getitem_wrap _ (g 0)) by (rewrite Hlen; exact H).
  rewrite Hlen.
  assert (Hw : 0 <= wrap n j < n) by (unfold wrap; destruct (Z.ltb_spec j 0); lia).
  rewrite nth_map_range by exact Hw. reflexivity.
Qed.

Lemma slice_demands (r : list Z) (nr : Z) :
  0 <= nr -> nr + 2 <= len r ->
  slice r (Some 1) (Some (nr + 1)) = row_demands nr r.
Proof.
  intros H0 H1. unfold slice, row_demands, clamp.
  destruct (Z.ltb_spec 1 0); [lia|]. destruct (Z.ltb_spec (nr + 1) 0); [lia|].
  rewrite !Z.min_l by lia. f_equal. lia.
Qed.

Lemma slice_successors (r : list Z) (nr : Z) :
  0 <= nr -> nr + 2 <= len r ->
  slice r (Some (nr + 2)) None = row_successors nr r.
Proof.
  intros H0 H1. unfold slice, row_successors, clamp.
  destruct (Z.ltb_spec (nr + 2) 0); [lia|].
  rewrite Z.min_l by lia.
  rewrite firstn_all2; [reflexivity|].
  rewrite length_skipn. unfold len in *. lia.
Qed.

(* ================================================================== *)
(** ** The model of an instance that follows the format *)

Section Shaped.

Variables (lo hi : Z) (i : instance).
Hypothesis Hshape : shaped lo hi i.

Let N := NB_TASKS i.
Let R := NB_RESOURCES i.

Lemma shaped_row (t : Z) :
  0 <= t < N -> row_shaped R lo hi (row i t).
Proof.
  intros Ht. destruct Hshape as (HN & _ & Hrows).
  rewrite Forall_forall in Hrows. apply Hrows.
  unfold row. apply nth_In. unfold N in Ht. rewrite HN in Ht. unfold len in Ht. lia.
Qed.

Lemma getitem_TASKS (t : Z) :
  0 <= t < N -> getitem (TASKS i) t = Return (row i t).
Proof.
  intros Ht. destruct Hshape as (HN & _ & _).
  unfold row. apply getitem_nth. unfold N in Ht. lia.
Qed.

Lemma shaped_nonneg : 0 <= N /\ 0 <= R.
Proof.
  destruct Hshape as (HN & HR & _). unfold N, R, len in *. lia.
Qed.

Lemma length_row_demands (t : Z) :
  0 <= t < N -> len (row_demands R (row i t)) = R.
Proof.
  intros Ht. destruct (shaped_row t Ht) as [Hlen _].
  pose proof shaped_nonneg as [_ HR].
  unfold row_demands, len in *. rewrite length_firstn, length_skipn. lia.
Qed.

Lemma DURATIONS_shaped :
  DURATIONS i = Return (map (fun t => row_duration (row i t)) (range N)).
Proof.
  unfold DURATIONS. apply comprehension_map. intros t Ht.
  apply in_range in Ht. rewrite (getitem_TASKS t Ht). simpl.
  destruct (shaped_row t Ht) as [Hlen _].
  pose proof shaped_nonneg as [_ HR].
  apply (getitem_nth (row i t) 0 0). lia.
Qed.

Lemma DEMANDS_shaped :
  DEMANDS i = Return (map (fun t => row_demands R (row i t)) (range N)).
Proof.
  unfold DEMANDS. apply comprehension_map. intros t Ht.
  apply in_range in Ht. rewrite (getitem_TASKS t Ht). simpl.
  destruct (shaped_row t Ht) as [Hlen _].
  pose proof shaped_nonneg as [_ HR].
  rewrite slice_demands by assumption. reflexivity.
Qed.

Lemma SUCCESSORS_shaped :
  SUCCESSORS i = Return (map (task_successors i) (range N)).
Proof.
  unfold SUCCESSORS. apply comprehension_map. intros t Ht.
  apply in_range in Ht. rewrite (getitem_TASKS t Ht). simpl.
  destruct (shaped_row t Ht) as [Hlen _].
  pose proof shaped_nonneg as [_ HR].
  rewrite slice_successors by assumption. reflexivity.
Qed.

Lemma make_tasks_shaped :
  make_tasks N (map (fun t => row_duration (row i t)) (range N))
  = Return (map (task i) (range N)).
Proof.
  unfold make_tasks. apply comprehension_map. intros t Ht.
  apply in_range in Ht. rewrite getitem_map_range by lia. simpl.
  unfold task, wrap. destruct (Z.ltb_spec t 0); [lia | reflexivity].
Qed.

(** Every successor id the lines hold is an index Python accepts. *)
Hypothesis Hlo : 1 - N <= lo.
Hypothesis Hhi : hi <= N.

Lemma precedence_constraints_shaped :
  precedence_constraints N (map (task i) (range N))
    (map (task_successors i) (range N))
  = Return (expected_precedences i).
Proof.
  unfold precedence_constraints, expected_precedences.
  rewrite comprehension_map
    with (g := fun t => map (fun s => end_before_start (task i t)
                                        (task i (wrap N (s - 1))))
                            (task_successors i t)).
  - simpl. rewrite flat_map_concat_map. reflexivity.
  - intros t Ht. apply in_range in Ht.
    rewrite getitem_map_range by lia. simpl. rewrite wrap_id by lia.
    apply comprehension_map. intros s Hs.
    destruct (shaped_row t Ht) as [_ Hsucc].
    rewrite Forall_forall in Hsucc. specialize (Hsucc s Hs).
    rewrite getitem_map_range by lia. simpl. rewrite wrap_id by lia.
    rewrite getitem_map_range by lia. reflexivity.
Qed.

Lemma demand_shaped (t r : Z) :
  0 <= t < N -> 0 <= r < R ->
  demand (map (fun t => row_demands R (row i t)) (range N)) t r
  = Return (task_demand i t r).
Proof.
  intros Ht Hr. unfold demand.
  rewrite getitem_map_range by lia. simpl. rewrite wrap_id by lia.
  apply getitem_nth. rewrite length_row_demands by exact Ht. exact Hr.
Qed.

Lemma capacity_constraints_shaped :
  capacity_constraints N R (map (task i) (range N))
    (map (fun t => row_demands R (row i t)) (range N)) (CAPACITIES i)
  = Return (expected_capacities i).
Proof.
  unfold capacity_constraints, expected_capacities.
  apply comprehension_map. intros r Hr. apply in_range in Hr.
  rewrite comprehension_if_filter
    with (c := fun t => 0 <? task_demand i t r)
         (g := fun t => {| pulse_var := task i t;
                           pulse_height := task_demand i t r |}).
  - simpl. destruct Hshape as (_ & HR & _).
    rewrite (getitem_nth (CAPACITIES i) 0) by (fold R in HR; lia).
    reflexivity.
  - intros t Ht. apply in_range in Ht.
    rewrite demand_shaped by assumption. reflexivity.
  - intros t Ht _. apply in_range in Ht.
    rewrite getitem_map_range by lia. simpl. rewrite wrap_id by lia.
    rewrite demand_shaped by assumption. reflexivity.
Qed.

(** There is a task, so that the makespan has a maximum to be. *)
Hypothesis Htask : 1 <= N.

Lemma max_end_of_shaped :
  max_end_of (map (task i) (range N)) = Return (map (task i) (range N)).
Proof.
  unfold range. destruct (Z.to_nat N) as [|k] eqn:E; [lia | reflexivity].
Qed.

(** The script builds the expected model, and does not raise on the way. *)
Lemma build_model_shaped : build_model i = Return (expected_model i).
Proof.
  unfold build_model.
  rewrite DURATIONS_shaped. simpl.
  rewrite DEMANDS_shaped. simpl.
  rewrite SUCCESSORS_shaped. simpl.
  fold N. rewrite make_tasks_shaped. simpl.
  rewrite precedence_constraints_shaped. simpl.
  fold R. rewrite capacity_constraints_shaped. simpl.
  rewrite max_end_of_shaped. reflexivity.
Qed.

(** Without a task the construction stops at the makespan. *)
Lemma build_model_no_task :
  N = 0 -> is_return (build_model i) = false.
Proof.
  intros H0. unfold build_model.
  rewrite DURATIONS_shaped. simpl.
  rewrite DEMANDS_shaped. simpl.
  rewrite SUCCESSORS_shaped. simpl.
  fold N. rewrite make_tasks_shaped. simpl.
  rewrite precedence_constraints_shaped. simpl.
  fold R. rewrite capacity_constraints_shaped. simpl.
  rewrite H0. reflexivity.
Qed.

End Shaped.

(* ================================================================== *)
(** ** What [solve_rcpsp] returns *)

Section SolveFacts.

Variable cp_solve : solver.
Variable clock : nat -> Q.
Variable fs : string -> option string.

Ltac run_io :=
  unfold solve_rcpsp, solve_rcpsp_try, solve_rcpsp_except, read_instance,
    classify, try_except, io_bind, io_ret, lift, time_time, print; simpl.

(** The makespan and status are the verdict on the solver's outcome; the
    time is the difference of the two clock readings. *)
Lemma solve_rcpsp_returns (data_file : string) (w : World) :
  fst (solve_rcpsp cp_solve clock fs data_file w)
  = Return (verdict (solve_outcome cp_solve fs data_file),
            (clock (S (clock_reads w)) - clock (clock_reads w))%Q).
Proof.
  unfold solve_outcome, model_of_text, instance_of_text, open_read, verdict.
  run_io. unfold open_read.
  destruct (fs data_file) as [text|]; simpl; [|reflexivity].
  destruct (readline text) as [l1 f1]; simpl.
  destruct (read_header (split l1)) as [[n r]|e]; simpl; [|reflexivity].
  destruct (2 <? len (split l1)); simpl;
    (destruct (read_body n r f1) as [inst|e]; simpl; [|reflexivity];
     destruct (build_model inst) as [m|e]; simpl; [|reflexivity];
     destruct (cp_solve m TIME_PER_INSTANCE "Quiet") as [res|e]; simpl;
       [|reflexivity];
     destruct (is_solution res); simpl; [|reflexivity];
     destruct (get_solve_status res =? "Optimal")%string; simpl;
     destruct (first_objective (get_objective_values res)); reflexivity).
Qed.

(** A readable header with more than two tokens leaves the note on the
    standard output. *)
Lemma solve_rcpsp_note (data_file text l1 f1 : string) (w : World) :
  fs data_file = Some text ->
  readline text = (l1, f1) ->
  is_return (read_header (split l1)) = true ->
  2 < len (split l1) ->
  In (bound_note data_file)
     (stdout (snd (solve_rcpsp cp_solve clock fs data_file w))).
Proof.
  intros Hfs Hrl Hh Hlen.
  run_io. unfold open_read. rewrite Hfs. simpl. rewrite Hrl. simpl.
  destruct (read_header (split l1)) as [[n r]|e]; simpl in *; [|discriminate].
  apply Z.ltb_lt in Hlen. rewrite Hlen. simpl.
  destruct (read_body n r f1) as [inst|e]; simpl;
    [|apply in_or_app; left; apply in_or_app; right; left; reflexivity].
  destruct (build_model inst) as [m|e]; simpl;
    [|apply in_or_app; left; apply in_or_app; right; left; reflexivity].
  destruct (cp_solve m TIME_PER_INSTANCE "Quiet") as [res|e]; simpl;
    [|rewrite !in_app_iff; simpl; tauto].
  destruct (is_solution res); simpl; [|rewrite !in_app_iff; simpl; tauto].
  destruct (get_solve_status res =? "Optimal")%string; simpl;
    destruct (first_objective (get_objective_values res)); simpl;
    rewrite !in_app_iff; simpl; tauto.
Qed.

(** Without a third token nothing is said about a bound. *)
Lemma read_instance_silent (data_file text l1 f1 : string) (w : World) :
  fs data_file = Some text ->
  readline text = (l1, f1) ->
  len (split l1) <= 2 ->
  stdout (snd (read_instance fs data_file w)) = stdout w.
Proof.
  intros Hfs Hrl Hlen. run_io. unfold open_read. rewrite Hfs. simpl.
  rewrite Hrl. simpl.
  destruct (read_header (split l1)) as [[n r]|e]; simpl; [|reflexivity].
  destruct (Z.ltb_spec 2 (len (split l1))); [lia|]. simpl.
  destruct (read_body n r f1); reflexivity.
Qed.

End SolveFacts.

Ltac settle_status res :=
  repeat split; intros H; try discriminate;
  try (exists res; repeat split; assumption);
  try (destruct H as (r & Hr & H1 & H2); inversion Hr; subst; congruence);
  try (destruct H as (r & Hr & H1); inversion Hr; subst; congruence);
  try (destruct H as (r & Hr); discriminate).

Lemma verdict_status (o : result CpoSolveResult) :
  (snd (verdict o) = "optimal" <->
     exists res, o = Return res /\ is_solution res = true
                 /\ get_solve_status res = "Optimal") /\
  (snd (verdict o) = "feasible" <->
     exists res, o = Return res /\ is_solution res = true
                 /\ get_solve_status res <> "Optimal") /\
  (snd (verdict o) = "unknown" <->
     exists res, o = Return res /\ is_solution res = false) /\
  (snd (verdict o) = "error" <-> exists e, o = Raise e).
Proof.
  destruct o as [res|e]; simpl.
  - destruct (is_solution res) eqn:Es; simpl.
    + destruct (String.eqb_spec (get_solve_status res) "Optimal") as [Eo|Eo];
        simpl; settle_status res.
    + settle_status res.
  - repeat split; intros H; try discriminate;
      try (exists e; reflexivity);
      try (destruct H as (r & Hr & _); discriminate).
Qed.

(* ================================================================== *)
(** ** The header and the ignored bound *)

(** The header reads the first two tokens of the first line and nothing
    else of it. *)
Lemma read_header_firstn (toks : list string) :
  read_header toks = read_header (firstn 2 toks).
Proof.
  destruct toks as [|a [|b rest]]; try reflexivity.
  unfold read_header.
  rewrite (getitem_nth (a :: b :: rest) a 0) by (unfold len; cbn [List.length]; lia).
  rewrite (getitem_nth (a :: b :: rest) a 1) by (unfold len; cbn [List.length]; lia).
  reflexivity.
Qed.

Lemma instance_of_text_header (text text' l l' rest : string) :
  readline text = (l, rest) ->
  readline text' = (l', rest) ->
  firstn 2 (split l) = firstn 2 (split l') ->
  instance_of_text text = instance_of_text text'.
Proof.
  intros H H' Htok. unfold instance_of_text. rewrite H, H'.
  rewrite (read_header_firstn (split l)), (read_header_firstn (split l')), Htok.
  reflexivity.
Qed.

(** C2. Two files whose first lines agree on their first two tokens and
    whose other lines are the same (so they differ at most in the presence
    or the value of a bound after [NB_TASKS NB_RESOURCES]) give the same
    instance and the same model, and [solve_rcpsp] returns the same makespan
    and status for both, whatever the solver; a file whose readable header
    carries a third token gets the note about the ignored bound printed. *)
Theorem bound_token_ignored (cp_solve : solver) (clock clock' : nat -> Q)
    (fs : string -> option string) (p p' text text' l l' rest : string)
    (w w' : World) :
  fs p = Some text ->
  fs p' = Some text' ->
  readline text = (l, rest) ->
  readline text' = (l', rest) ->
  firstn 2 (split l) = firstn 2 (split l') ->
  model_of_text text = model_of_text text' /\
  (exists makespan status t t',
      fst (solve_rcpsp cp_solve clock fs p w) = Return (makespan, status, t) /\
      fst (solve_rcpsp cp_solve clock' fs p' w') = Return (makespan, status, t')) /\
  (2 < len (split l) -> is_return (read_header (split l)) = true ->
   In (bound_note p) (stdout (snd (solve_rcpsp cp_solve clock fs p w)))).
Proof.
  intros Hp Hp' Hl Hl' Htok.
  assert (Hi : instance_of_text text = instance_of_text text')
    by (eapply instance_of_text_header; eassumption).
  assert (Hm : model_of_text text = model_of_text text')
    by (unfold model_of_text; rewrite Hi; reflexivity).
  split; [exact Hm | split].
  - assert (Ho : solve_outcome cp_solve fs p = solve_outcome cp_solve fs p').
    { unfold solve_outcome, open_read. rewrite Hp, Hp'. simpl.
      rewrite Hm. reflexivity. }
    rewrite !solve_rcpsp_returns, Ho.
    destruct (verdict (solve_outcome cp_solve fs p')) as [makespan status].
    do 4 eexists. split; reflexivity.
  - intros Hlen Hh. eapply solve_rcpsp_note; eassumption.
Qed.

Lemma bound_token_ignored_witness :
  model_of_text Samples.two_tasks = model_of_text Samples.two_tasks_bound /\
  (exists makespan status t t',
      fst (solve_rcpsp Samples.proves_optimal_5 Samples.ticking
             Samples.sample_fs "data/j9010_2.data" Samples.fresh)
      = Return (makespan, status, t) /\
      fst (solve_rcpsp Samples.proves_optimal_5 Samples.ticking
             Samples.sample_fs "data/j9010_1.data" Samples.fresh)
      = Return (makespan, status, t')) /\
  In (bound_note "data/j9010_2.data")
     (stdout (snd (solve_rcpsp Samples.proves_optimal_5 Samples.ticking
                     Samples.sample_fs "data/j9010_2.data" Samples.fresh))).
Proof.
  destruct (bound_token_ignored Samples.proves_optimal_5 Samples.ticking
              Samples.ticking Samples.sample_fs
              "data/j9010_2.data" "data/j9010_1.data"
              Samples.two_tasks_bound Samples.two_tasks
              ("2 1 5" ++ String newline "") ("2 1" ++ String newline "")
              (Samples.text_of_lines ["1"; "3 1 1 2"; "2 1 0"])
              Samples.fresh Samples.fresh
              eq_refl eq_refl eq_refl eq_refl eq_refl)
    as (Hm & Hr & Hnote).
  split; [symmetry; exact Hm | split; [exact Hr |]].
  apply Hnote; [vm_compute; reflexivity | reflexivity].
Defined.

(* ================================================================== *)
(** ** Status and totality *)

(** C5. The status [solve_rcpsp] returns is one of the four, and each one
    tells what happened: ["optimal"] when the solver returned a solution
    with solve status ["Optimal"], ["feasible"] when it returned a solution
    with another solve status, ["unknown"] when it returned no solution,
    ["error"] when an exception was raised. *)
Theorem status_classification (cp_solve : solver) (clock : nat -> Q)
    (fs : string -> option string) (data_file : string) (w : World) :
  exists makespan status solve_time,
    fst (solve_rcpsp cp_solve clock fs data_file w)
    = Return (makespan, status, solve_time) /\
    (status = "optimal" \/ status = "feasible" \/ status = "unknown"
     \/ status = "error") /\
    (status = "optimal" <->
       exists res, solve_outcome cp_solve fs data_file = Return res
                   /\ is_solution res = true
                   /\ get_solve_status res = "Optimal") /\
    (status = "feasible" <->
       exists res, solve_outcome cp_solve fs data_file = Return res
                   /\ is_solution res = true
                   /\ get_solve_status res <> "Optimal") /\
    (status = "unknown" <->
       exists res, solve_outcome cp_solve fs data_file = Return res
                   /\ is_solution res = false) /\
    (status = "error" <-> exists e, solve_outcome cp_solve fs data_file = Raise e).
Proof.
  rewrite solve_rcpsp_returns.
  pose proof (verdict_status (solve_outcome cp_solve fs data_file)) as Hv.
  destruct (verdict (solve_outcome cp_solve fs data_file)) as [makespan status]
    eqn:Ev.
  exists makespan, status, (clock (S (clock_reads w)) - clock (clock_reads w))%Q.
  split; [reflexivity | split; [| exact Hv]].
  clear Hv. unfold verdict in Ev.
  destruct (solve_outcome cp_solve fs data_file) as [res|e].
  - destruct (is_solution res).
    + destruct (get_solve_status res =? "Optimal")%string;
        inversion Ev; auto.
    + inversion Ev; auto.
  - inversion Ev; auto.
Qed.




(* ================================================================== *)
(** ** The batch loop *)

Section BatchFacts.

Variable solve : string -> io (option Z * string * Q).




End BatchFacts.




(** The rows the loop writes when the call for the second file raises. *)
Example batch_loop_rows :
  csv_rows (snd (batch_loop (Samples.fails_on "data/b.data")
                   ["data/a.data"; "data/b.data"; "data/c.data"] Samples.fresh))
  = [["a.data"; "5"; "optimal"; "1.00"];
     ["b.data"; "Error"; "error"; "0.00"];
     ["c.data"; "5"; "optimal"; "1.00"]].
Proof. vm_compute. reflexivity. Qed.

(* ================================================================== *)
(** ** The constraints of the model *)

Lemma cumul_usage (sigma : schedule) (tk : Z -> interval_var) (dem : Z -> Z)
    (tau : Z) (xs : list Z) :
  (forall t, In t xs -> 0 <= dem t) ->
  cumul_at sigma
    (map (fun t => {| pulse_var := tk t; pulse_height := dem t |})
         (filter (fun t => 0 <? dem t) xs)) tau
  = zsum (map (fun t => if active sigma (tk t) tau then dem t else 0) xs).
Proof.
  unfold cumul_at. induction xs as [|x xs IH]; intros Hpos; simpl.
  - reflexivity.
  - assert (Hx : 0 <= dem x) by (apply Hpos; left; reflexivity).
    assert (IH' := IH (fun t Ht => Hpos t (or_intror Ht))).
    destruct (Z.ltb_spec 0 (dem x)); simpl.
    + rewrite IH'. reflexivity.
    + rewrite IH'. replace (dem x) with 0 by lia.
      destruct (active sigma (tk x) tau); reflexivity.
Qed.

Lemma task_demand_nonneg (i : instance) (t r : Z) :
  valid_instance i -> 0 <= t < NB_TASKS i -> 0 <= task_demand i t r.
Proof.
  intros [(HN & _ & _) Hdem] Ht. unfold task_demand.
  rewrite Forall_forall in Hdem.
  assert (Hin : In (row i t) (TASKS i)).
  { unfold row. apply nth_In. unfold len in HN. lia. }
  specialize (Hdem _ Hin). rewrite Forall_forall in Hdem.
  destruct (nth_in_or_default (Z.to_nat r)
              (row_demands (NB_RESOURCES i) (row i t)) 0) as [H|H].
  - apply Hdem. exact H.
  - rewrite H. lia.
Qed.

(** C3. For a valid instance with at least one task the script builds,
    without raising, the model made of one [end_before_start] per successor
    occurrence, one cumulative constraint per resource and the objective;
    a schedule satisfies the constraints of that model exactly when every
    task ends before each of its successors starts and, for every resource
    and every integer instant, the demands of the tasks running at that
    instant sum to at most the capacity. For a valid instance without task
    no model is built: the makespan of line 71 has no maximum, an exception
    is raised and no solution is reported. *)
Theorem model_constraints (i : instance) :
  valid_instance i ->
  (NB_TASKS i = 0 -> is_return (build_model i) = false) /\
  (1 <= NB_TASKS i ->
   build_model i
   = Return (expected_precedences i ++ expected_capacities i
               ++ [minimize_max_end_of (map (task i) (range (NB_TASKS i)))]) /\
   forall sigma : schedule,
     solution sigma (expected_model i) <->
     (forall t s, 0 <= t < NB_TASKS i -> In s (task_successors i t) ->
        end_of sigma (task i t) <= start_of sigma (task i (s - 1))) /\
     (forall r tau, 0 <= r < NB_RESOURCES i ->
        usage sigma i r tau <= capacity i r)).
Proof.
  intros Hvalid. pose proof Hvalid as [Hshape Hdem].
  assert (HN : 0 <= NB_TASKS i) by (destruct Hshape as (H & _); unfold len in H; lia).
  split.
  { intros H0.
    apply (build_model_no_task 1 (NB_TASKS i)); [exact Hshape | lia | lia | exact H0]. }
  intros Htask. split.
  - apply (build_model_shaped 1 (NB_TASKS i)); [exact Hshape | lia | lia | exact Htask].
  - intros sigma. unfold solution, expected_model.
    rewrite !Forall_app. unfold expected_precedences, expected_capacities.
    rewrite Forall_flat_map, Forall_map. rewrite !Forall_forall.
    split.
    + intros (Hprec & Hcap & _). split.
      * intros t s Ht Hs.
        specialize (Hprec t (proj2 (in_range _ _) Ht)).
        rewrite Forall_map, Forall_forall in Hprec.
        specialize (Hprec s Hs). simpl in Hprec.
        destruct (shaped_row 1 (NB_TASKS i) i Hshape t Ht) as [_ Hsucc].
        rewrite Forall_forall in Hsucc. specialize (Hsucc s Hs). cbv beta in Hsucc.
        rewrite wrap_id in Hprec by lia. exact Hprec.
      * intros r tau Hr.
        specialize (Hcap r (proj2 (in_range _ _) Hr)). simpl in Hcap.
        specialize (Hcap tau). unfold expected_pulses in Hcap.
        rewrite cumul_usage in Hcap; [exact Hcap |].
        intros t Ht. apply task_demand_nonneg; [exact Hvalid |].
        apply in_range. exact Ht.
    + intros [Hprec Hcap]. split; [| split].
      * intros t Ht. apply in_range in Ht.
        rewrite Forall_map, Forall_forall. intros s Hs. simpl.
        destruct (shaped_row 1 (NB_TASKS i) i Hshape t Ht) as [_ Hsucc].
        rewrite Forall_forall in Hsucc. specialize (Hsucc s Hs). cbv beta in Hsucc.
        rewrite wrap_id by lia. apply Hprec; assumption.
      * intros r Hr. apply in_range in Hr. simpl. intros tau.
        unfold expected_pulses. rewrite cumul_usage.
        -- apply Hcap. exact Hr.
        -- intros t Ht. apply task_demand_nonneg; [exact Hvalid |].
           apply in_range. exact Ht.
      * intros e [<- | []]. exact I.
Qed.

Lemma two_tasks_valid : valid_instance Samples.two_tasks_instance.
Proof.
  unfold valid_instance, shaped, row_shaped; simpl.
  repeat split; try (unfold len; simpl; lia);
    repeat constructor; unfold len; simpl; lia.
Qed.

Lemma model_constraints_witness :
  build_model Samples.two_tasks_instance
  = Return [end_before_start {| iv_name := "T1"; iv_size := 3 |}
                             {| iv_name := "T2"; iv_size := 2 |};
            sum_le [{| pulse_var := {| iv_name := "T1"; iv_size := 3 |};
                       pulse_height := 1 |};
                    {| pulse_var := {| iv_name := "T2"; iv_size := 2 |};
                       pulse_height := 1 |}] 1;
            minimize_max_end_of [{| iv_name := "T1"; iv_size := 3 |};
                                 {| iv_name := "T2"; iv_size := 2 |}]] /\
  forall sigma : schedule,
    solution sigma (expected_model Samples.two_tasks_instance) <->
    (forall t s, 0 <= t < 2 -> In s (task_successors Samples.two_tasks_instance t) ->
       end_of sigma (task Samples.two_tasks_instance t)
       <= start_of sigma (task Samples.two_tasks_instance (s - 1))) /\
    (forall r tau, 0 <= r < 1 ->
       usage sigma Samples.two_tasks_instance r tau
       <= capacity Samples.two_tasks_instance r).
Proof.
  destruct (model_constraints Samples.two_tasks_instance two_tasks_valid)
    as [_ Hmodel].
  apply Hmodel. simpl. lia.
Defined.

(* ================================================================== *)
(** ** The fields of a task line *)

Lemma comprehension_length {A B} (f : A -> result B) (xs : list A) (ys : list B) :
  comprehension f xs = Return ys -> len ys = len xs.
Proof.
  intros H. apply comprehension_Return in H.
  unfold len. rewrite (Forall2_length H). reflexivity.
Qed.

Lemma comprehension_app_Return {A B} (f : A -> result B) (xs ys : list A)
    (zs : list B) :
  comprehension f (xs ++ ys) = Return zs ->
  exists xs' ys',
    zs = xs' ++ ys' /\ comprehension f xs = Return xs'
    /\ comprehension f ys = Return ys'.
Proof.
  revert zs. induction xs as [|x xs IH]; intros zs H; simpl in *.
  - exists [], zs. repeat split. exact H.
  - destruct (f x) as [y|e]; simpl in *; [|discriminate].
    destruct (comprehension f (xs ++ ys)) as [r|e] eqn:E; simpl in *;
      [|discriminate].
    inversion H; subst zs.
    destruct (IH r eq_refl) as (xs' & ys' & -> & Hx & Hy).
    exists (y :: xs'), ys'. rewrite Hx. simpl. repeat split. exact Hy.
Qed.

Lemma comprehension_cons_Return {A B} (f : A -> result B) (x : A) (xs : list A)
    (zs : list B) :
  comprehension f (x :: xs) = Return zs ->
  exists y ys, zs = y :: ys /\ f x = Return y /\ comprehension f xs = Return ys.
Proof.
  simpl. intros H.
  destruct (f x) as [y|e]; simpl in *; [|discriminate].
  destruct (comprehension f xs) as [ys|e]; simpl in *; [|discriminate].
  inversion H. exists y, ys. repeat split.
Qed.

Section RowFields.

Variables (nr d ns : Z) (dem succ : list Z).
Hypothesis Hdem : len dem = nr.

Lemma row_fields_length : 0 <= nr /\ nr + 2 <= len (d :: dem ++ ns :: succ).
Proof.
  unfold len in *. cbn [List.length]. rewrite length_app. cbn [List.length]. lia.
Qed.

Lemma row_duration_fields : row_duration (d :: dem ++ ns :: succ) = d.
Proof. reflexivity. Qed.

Lemma row_demands_fields : row_demands nr (d :: dem ++ ns :: succ) = dem.
Proof.
  unfold row_demands. simpl skipn.
  replace (Z.to_nat nr) with (List.length dem) by (unfold len in Hdem; lia).
  rewrite firstn_app, Nat.sub_diag, firstn_all. simpl. apply app_nil_r.
Qed.

Lemma row_successors_fields : row_successors nr (d :: dem ++ ns :: succ) = succ.
Proof.
  unfold row_successors.
  replace (Z.to_nat (nr + 2)) with (S (List.length dem + 1))
    by (unfold len in Hdem; lia).
  simpl skipn. rewrite skipn_app.
  rewrite skipn_all2 by lia.
  replace (List.length dem + 1 - List.length dem)%nat with 1%nat by lia.
  reflexivity.
Qed.

End RowFields.

(** The fields of a row that was read from a line: its tokens are read
    by [int] one by one, and the slices of lines 52 to 54 cut the row where
    the format says. *)
Lemma task_row_fields (i : instance) (t : Z) (l td tns : string)
    (tdem tsucc : list string) :
  shaped 1 (NB_TASKS i) i ->
  0 <= t < NB_TASKS i ->
  int_line l = Return (row i t) ->
  split l = td :: tdem ++ tns :: tsucc ->
  len tdem = NB_RESOURCES i ->
  exists d dem ns succ durations demands successors m,
    int td = Return d /\ comprehension int tdem = Return dem /\
    int tns = Return ns /\ comprehension int tsucc = Return succ /\
    len dem = NB_RESOURCES i /\
    row i t = d :: dem ++ ns :: succ /\
    DURATIONS i = Return durations /\ getitem durations t = Return d /\
    DEMANDS i = Return demands /\ getitem demands t = Return dem /\
    SUCCESSORS i = Return successors /\ getitem successors t = Return succ /\
    build_model i = Return m /\
    forall s, In s succ ->
      1 <= s <= NB_TASKS i /\
      iv_name (task i (s - 1)) = ("T" ++ str_of_int s)%string /\
      In (end_before_start (task i t) (task i (s - 1))) m.
Proof.
  intros Hshape Ht Hline Hsplit Hlen.
  unfold int_line in Hline. rewrite Hsplit in Hline.
  apply comprehension_cons_Return in Hline as (d & rest & Hrow & Hd & Hrest).
  apply comprehension_app_Return in Hrest as (dem & rest' & -> & Hdem & Hrest).
  apply comprehension_cons_Return in Hrest as (ns & succ & -> & Hns & Hsucc).
  assert (Hldem : len dem = NB_RESOURCES i)
    by (rewrite (comprehension_length _ _ _ Hdem); exact Hlen).
  exists d, dem, ns, succ.
  exists (map (fun t => row_duration (row i t)) (range (NB_TASKS i))),
         (map (fun t => row_demands (NB_RESOURCES i) (row i t)) (range (NB_TASKS i))),
         (map (task_successors i) (range (NB_TASKS i))),
         (expected_model i).
  repeat match goal with |- _ /\ _ => split end; try assumption.
  - apply (DURATIONS_shaped _ _ _ Hshape).
  - rewrite getitem_map_range, wrap_id, Hrow by lia. reflexivity.
  - apply (DEMANDS_shaped _ _ _ Hshape).
  - rewrite getitem_map_range, wrap_id, Hrow by lia.
    rewrite row_demands_fields by exact Hldem. reflexivity.
  - apply (SUCCESSORS_shaped _ _ _ Hshape).
  - rewrite getitem_map_range, wrap_id by lia. unfold task_successors.
    rewrite Hrow, row_successors_fields by exact Hldem. reflexivity.
  - apply (build_model_shaped 1 (NB_TASKS i)); [exact Hshape | lia | lia | lia].
  - intros s Hs.
    assert (Hin : In s (task_successors i t)).
    { unfold task_successors.
      rewrite Hrow, row_successors_fields by exact Hldem. exact Hs. }
    destruct (shaped_row _ _ _ Hshape t Ht) as [_ Hrange].
    rewrite Forall_forall in Hrange. specialize (Hrange s Hin).
    cbv beta in Hrange.
    split; [exact Hrange | split].
    + unfold task. simpl. replace (s - 1 + 1) with s by lia. reflexivity.
    + unfold expected_model. apply in_or_app. left.
      unfold expected_precedences. apply in_flat_map.
      exists t. split; [apply in_range; exact Ht |].
      apply in_map_iff. exists s. split; [| exact Hin].
      rewrite wrap_id by lia. reflexivity.
Qed.

Lemma two_tasks_shaped : shaped 1 2 Samples.two_tasks_instance.
Proof. exact (proj1 two_tasks_valid). Qed.

(* ================================================================== *)
(** ** The announced number of successors *)

Lemma Forall2_nth_rel {A B} (P : A -> B -> Prop) (l : list A) (l' : list B)
    (d : A) (d' : B) :
  Forall2 P l l' ->
  forall k, (k < List.length l)%nat -> P (nth k l d) (nth k l' d').
Proof.
  induction 1 as [|x y l l' Hxy Hall IH]; intros k Hk; simpl in *.
  - lia.
  - destruct k as [|k]; [exact Hxy | apply IH; lia].
Qed.

(** Indexing two lists of related items: both raise, or both return
    related items. *)
Lemma getitem_Forall2 {A} (P : A -> A -> Prop) (l l' : list A) (j : Z) :
  Forall2 P l l' ->
  (exists a a', getitem l j = Return a /\ getitem l' j = Return a' /\ P a a')
  \/ (exists e, getitem l j = Raise e /\ getitem l' j = Raise e).
Proof.
  intros H.
  assert (Hlen : len l' = len l)
    by (unfold len; rewrite (Forall2_length H); reflexivity).
  destruct (Z_lt_ge_dec j (- len l)) as [Hlo|Hlo];
    [| destruct (Z_lt_ge_dec j (len l)) as [Hhi|Hhi]].
  - right. eexists.
    rewrite !getitem_out_of_range by (rewrite ?Hlen; lia). split; reflexivity.
  - destruct l as [|a0 l0] eqn:El; [unfold len in *; simpl in *; lia |].
    rewrite <- El in *. left.
    exists (nth (Z.to_nat (wrap (len l) j)) l a0),
           (nth (Z.to_nat (wrap (len l) j)) l' a0).
    split; [apply getitem_wrap; lia | split].
    + rewrite <- Hlen at 1. apply getitem_wrap. lia.
    + apply Forall2_nth_rel; [exact H |].
      unfold wrap, len in *. destruct (Z.ltb_spec j 0); lia.
  - right. eexists.
    rewrite !getitem_out_of_range by (rewrite ?Hlen; lia). split; reflexivity.
Qed.

Lemma same_but_count_fields (nr : Z) (r r' : list Z) :
  same_but_count nr r r' ->
  getitem r 0 = getitem r' 0 /\
  slice r (Some 1) (Some (nr + 1)) = slice r' (Some 1) (Some (nr + 1)) /\
  slice r (Some (nr + 2)) None = slice r' (Some (nr + 2)) None.
Proof.
  intros [-> | (d & dem & ns & ns' & succ & Hdem & -> & ->)].
  - repeat split.
  - pose proof (row_fields_length nr d ns dem succ Hdem) as [H0 H1].
    pose proof (row_fields_length nr d ns' dem succ Hdem) as [_ H1'].
    split; [| split].
    + rewrite !(getitem_nth _ 0) by lia. reflexivity.
    + rewrite !slice_demands by assumption.
      rewrite !row_demands_fields by exact Hdem. reflexivity.
    + rewrite !slice_successors by assumption.
      rewrite !row_successors_fields by exact Hdem. reflexivity.
Qed.

(** A token that is not an integer literal makes the whole line fail. *)
Lemma int_line_raises (l : string) (toks toks' : list string) (tok : string) :
  split l = toks ++ tok :: toks' ->
  literal_val tok = None ->
  is_return (int_line l) = false.
Proof.
  intros Hsplit Hlit. unfold int_line. rewrite Hsplit. clear Hsplit.
  induction toks as [|x toks IH]; simpl.
  - unfold int. rewrite Hlit. reflexivity.
  - destruct (int x); simpl; [| reflexivity].
    destruct (comprehension int (toks ++ tok :: toks')); simpl in *;
      [discriminate | reflexivity].
Qed.

(** C10. The token that announces the number of successors is read by
    [int] (a token there that is not an integer makes the line fail), and
    its value is used nowhere: two instances whose task lines differ at most
    in that value have the same durations, demands and successors, and the
    same model is built for both, with the same exception when building
    raises. *)
Theorem successor_count_unused (i i' : instance) :
  NB_TASKS i = NB_TASKS i' ->
  NB_RESOURCES i = NB_RESOURCES i' ->
  CAPACITIES i = CAPACITIES i' ->
  Forall2 (same_but_count (NB_RESOURCES i)) (TASKS i) (TASKS i') ->
  DURATIONS i = DURATIONS i' /\
  DEMANDS i = DEMANDS i' /\
  SUCCESSORS i = SUCCESSORS i' /\
  build_model i = build_model i' /\
  (forall l td tdem tns tsucc,
     split l = td :: tdem ++ tns :: tsucc ->
     len tdem = NB_RESOURCES i ->
     literal_val tns = None ->
     is_return (int_line l) = false).
Proof.
  intros HN HR HC Hrows.
  assert (Hfields : forall t,
    (row <- getitem (TASKS i) t ;; getitem row 0)
    = (row <- getitem (TASKS i') t ;; getitem row 0) /\
    (row <- getitem (TASKS i) t ;;
       Return (slice row (Some 1) (Some (NB_RESOURCES i + 1))))
    = (row <- getitem (TASKS i') t ;;
       Return (slice row (Some 1) (Some (NB_RESOURCES i' + 1)))) /\
    (row <- getitem (TASKS i) t ;;
       Return (slice row (Some (NB_RESOURCES i + 2)) None))
    = (row <- getitem (TASKS i') t ;;
       Return (slice row (Some (NB_RESOURCES i' + 2)) None))).
  { intros t. rewrite <- HR.
    destruct (getitem_Forall2 _ _ _ t Hrows)
      as [(r & r' & -> & -> & Hrel) | (e & -> & ->)]; simpl.
    - destruct (same_but_count_fields _ _ _ Hrel) as (H0 & H1 & H2).
      rewrite H0, H1, H2. repeat split.
    - repeat split. }
  assert (Hd : DURATIONS i = DURATIONS i').
  { unfold DURATIONS. rewrite <- HN. apply comprehension_ext.
    intros t _. apply Hfields. }
  assert (Hm : DEMANDS i = DEMANDS i').
  { unfold DEMANDS. rewrite <- HN. apply comprehension_ext.
    intros t _. apply Hfields. }
  assert (Hs : SUCCESSORS i = SUCCESSORS i').
  { unfold SUCCESSORS. rewrite <- HN. apply comprehension_ext.
    intros t _. apply Hfields. }
  repeat match goal with |- _ /\ _ => split end; try assumption.
  - unfold build_model. rewrite Hd, Hm, Hs, HN, HR, HC. reflexivity.
  - intros l td tdem tns tsucc Hsplit _ Hlit.
    apply (int_line_raises l (td :: tdem) tsucc tns); assumption.
Qed.

Lemma successor_count_unused_witness :
  build_model Samples.two_tasks_miscounted_instance
  = build_model Samples.two_tasks_instance /\
  is_return (build_model Samples.two_tasks_miscounted_instance) = true /\
  is_return (int_line "3 1 x 2") = false.
Proof.
  destruct (successor_count_unused Samples.two_tasks_miscounted_instance
              Samples.two_tasks_instance eq_refl eq_refl eq_refl)
    as (_ & _ & _ & Hm & Hint).
  - constructor; [| constructor; [left; reflexivity | constructor]].
    right. exists 3, [1], 5, 1, [2]. repeat split.
  - split; [exact Hm | split; [reflexivity |]].
    apply (Hint "3 1 x 2" "3" ["1"] "x" ["2"]); reflexivity.
Defined.

(* ================================================================== *)
(** ** Successor ids that are not task ids *)

Lemma comprehension_raises {A B} (f : A -> result B) (xs : list A) (x : A) :
  In x xs -> is_return (f x) = false ->
  is_return (comprehension f xs) = false.
Proof.
  induction xs as [|y xs IH]; intros Hin Hx; simpl in *.
  - contradiction.
  - destruct Hin as [-> | Hin].
    + destruct (f x); [discriminate | reflexivity].
    + destruct (f y); simpl; [| reflexivity].
      specialize (IH Hin Hx).
      destruct (comprehension f xs); simpl in *; [discriminate | reflexivity].
Qed.

(** An item of the list a comprehension over [range(n)] returned. *)
Lemma comprehension_range_item {B} (f : Z -> result B) (n t : Z) (ys : list B)
    (y : B) :
  comprehension f (range n) = Return ys ->
  0 <= t < n ->
  f t = Return y ->
  getitem ys t = Return y.
Proof.
  intros Hys Ht Hy.
  pose proof (comprehension_length _ _ _ Hys) as Hlen.
  unfold len in Hlen. rewrite length_range in Hlen.
  apply comprehension_Return in Hys.
  pose proof (Forall2_nth_rel _ _ _ 0 y Hys (Z.to_nat t)) as Hrel.
  rewrite length_range in Hrel. specialize (Hrel ltac:(lia)).
  cbv beta in Hrel.
  replace (nth (Z.to_nat t) (range n) 0) with t in Hrel.
  - rewrite Hy in Hrel. inversion Hrel as [Heq].
    rewrite (getitem_nth ys y) by (unfold len; lia).
    rewrite <- Heq. reflexivity.
  - symmetry. rewrite <- (map_id (range n)). apply nth_map_range. exact Ht.
Qed.

(** A successor id above [N], or at most [-N], stops the construction of
    the model: [tasks[s - 1]] raises, unless something raised before. *)
Lemma build_model_bad_successor (i : instance) (t s : Z) (r : list Z) :
  0 <= t < NB_TASKS i ->
  getitem (TASKS i) t = Return r ->
  In s (slice r (Some (NB_RESOURCES i + 2)) None) ->
  NB_TASKS i < s \/ s <= - NB_TASKS i ->
  is_return (build_model i) = false.
Proof.
  intros Ht Hrow Hs Hbad. unfold build_model.
  destruct (DURATIONS i) as [durations|]; simpl; [| reflexivity].
  destruct (DEMANDS i) as [demands|]; simpl; [| reflexivity].
  destruct (SUCCESSORS i) as [successors|] eqn:Es; simpl; [| reflexivity].
  destruct (make_tasks (NB_TASKS i) durations) as [tasks|] eqn:Et; simpl;
    [| reflexivity].
  assert (Hraise : is_return
            (precedence_constraints (NB_TASKS i) tasks successors) = false).
  { unfold precedence_constraints.
    match goal with
    | |- is_return (Py.bind ?c _) = false =>
        assert (Hc : is_return c = false); [| destruct c; [discriminate | reflexivity]]
    end.
    apply comprehension_raises with (x := t); [apply in_range; exact Ht |].
    assert (Hitem : getitem successors t
                    = Return (slice r (Some (NB_RESOURCES i + 2)) None)).
    { unfold SUCCESSORS in Es.
      eapply comprehension_range_item; [exact Es | exact Ht |].
      cbv beta. rewrite Hrow. reflexivity. }
    rewrite Hitem. simpl. apply comprehension_raises with (x := s); [exact Hs |].
    pose proof (comprehension_length _ _ _ Et) as Hlen.
    unfold len in Hlen at 2. rewrite length_range in Hlen.
    destruct tasks as [|v tasks'] eqn:Etasks;
      [unfold len in Hlen; simpl in Hlen; lia |]. rewrite <- Etasks in *.
    rewrite (getitem_nth tasks v) by lia. simpl.
    rewrite getitem_out_of_range by lia. reflexivity. }
  destruct (precedence_constraints (NB_TASKS i) tasks successors);
    [discriminate | reflexivity].
Qed.

(** C4, as the code has it. A successor id above the number of tasks, or
    at most its opposite, makes [solve_rcpsp] return no makespan and the
    status ["error"]; the ids from [1 - N] to [0] are not covered: Python
    reads [tasks[s - 1]] from the end of the list for them. *)
Theorem out_of_range_successor_is_error (cp_solve : solver) (clock : nat -> Q)
    (fs : string -> option string) (data_file text : string) (w : World)
    (i : instance) (t s : Z) (r : list Z) :
  fs data_file = Some text ->
  instance_of_text text = Return i ->
  0 <= t < NB_TASKS i ->
  getitem (TASKS i) t = Return r ->
  In s (slice r (Some (NB_RESOURCES i + 2)) None) ->
  NB_TASKS i < s \/ s <= - NB_TASKS i ->
  exists solve_time,
    fst (solve_rcpsp cp_solve clock fs data_file w)
    = Return (None, "error", solve_time).
Proof.
  intros Hfs Hi Ht Hrow Hs Hbad.
  rewrite solve_rcpsp_returns.
  unfold solve_outcome, open_read, model_of_text. rewrite Hfs. simpl.
  rewrite Hi. simpl.
  pose proof (build_model_bad_successor i t s r Ht Hrow Hs Hbad) as Hraise.
  destruct (build_model i); [discriminate |]. simpl.
  eexists. reflexivity.
Qed.

Lemma out_of_range_successor_is_error_witness :
  exists solve_time,
    fst (solve_rcpsp Samples.proves_optimal_5 Samples.ticking Samples.sample_fs
           "data/j9010_4.data" Samples.fresh)
    = Return (None, "error", solve_time).
Proof.
  apply (out_of_range_successor_is_error Samples.proves_optimal_5
           Samples.ticking Samples.sample_fs "data/j9010_4.data"
           Samples.successor_three Samples.fresh
           Samples.successor_three_instance 0 3 [3; 1; 1; 3]);
    try reflexivity.
  - split; [discriminate | reflexivity].
  - left. reflexivity.
  - left. reflexivity.
Defined.

(** C4 as stated fails: the first task line of [successor_zero] names the
    successor 0, which is no task id, and the file is solved like
    [two_tasks]: status ["optimal"], makespan 5. *)
Lemma successor_zero_not_rejected :
  instance_of_text Samples.successor_zero
  = Return Samples.successor_zero_instance /\
  SUCCESSORS Samples.successor_zero_instance = Return [[0]; []] /\
  build_model Samples.successor_zero_instance
  = build_model Samples.two_tasks_instance /\
  fst (solve_rcpsp Samples.proves_optimal_5 Samples.ticking Samples.sample_fs
         "data/j9010_3.data" Samples.fresh)
  = Return (Some 5, "optimal", 1%Q).
Proof. repeat split; vm_compute; reflexivity. Qed.

(** C9. In an instance of at least one task whose successor ids lie between
    0 and [N], the id 0 raises nothing: [tasks[0 - 1]] is the last interval
    variable, [T<N>], the model is built, and it holds an [end_before_start]
    from every task that names 0 to that last task; the status is not
    ["error"] whenever the solver returns. *)
Theorem successor_zero_is_last_task (i : instance) :
  1 <= NB_TASKS i ->
  shaped 0 (NB_TASKS i) i ->
  build_model i = Return (expected_model i) /\
  getitem (map (task i) (range (NB_TASKS i))) (0 - 1)
  = Return (task i (NB_TASKS i - 1)) /\
  iv_name (task i (NB_TASKS i - 1)) = ("T" ++ str_of_int (NB_TASKS i))%string /\
  (forall t, 0 <= t < NB_TASKS i -> In 0 (task_successors i t) ->
     In (end_before_start (task i t) (task i (NB_TASKS i - 1)))
        (expected_model i)) /\
  (forall (cp_solve : solver) (clock : nat -> Q) (fs : string -> option string)
          (data_file text : string) (w : World) (res : CpoSolveResult),
     fs data_file = Some text ->
     instance_of_text text = Return i ->
     cp_solve (expected_model i) TIME_PER_INSTANCE "Quiet" = Return res ->
     exists makespan status solve_time,
       fst (solve_rcpsp cp_solve clock fs data_file w)
       = Return (makespan, status, solve_time) /\
       status <> "error").
Proof.
  intros HN Hshape.
  assert (Hbuild : build_model i = Return (expected_model i))
    by (apply (build_model_shaped 0 (NB_TASKS i));
        [exact Hshape | lia | lia | exact HN]).
  repeat match goal with |- _ /\ _ => split end.
  - exact Hbuild.
  - rewrite getitem_map_range by lia.
    replace (wrap (NB_TASKS i) (0 - 1)) with (NB_TASKS i - 1)
      by (unfold wrap; destruct (Z.ltb_spec (0 - 1) 0); lia).
    reflexivity.
  - unfold task. simpl. replace (NB_TASKS i - 1 + 1) with (NB_TASKS i) by lia.
    reflexivity.
  - intros t Ht H0. unfold expected_model. apply in_or_app. left.
    unfold expected_precedences. apply in_flat_map.
    exists t. split; [apply in_range; exact Ht |].
    apply in_map_iff. exists 0. split; [| exact H0].
    replace (wrap (NB_TASKS i) (0 - 1)) with (NB_TASKS i - 1)
      by (unfold wrap; destruct (Z.ltb_spec (0 - 1) 0); lia).
    reflexivity.
  - intros cp_solve clock fs data_file text w res Hfs Hi Hres.
    rewrite solve_rcpsp_returns.
    unfold solve_outcome, open_read, model_of_text. rewrite Hfs. simpl.
    rewrite Hi. simpl. rewrite Hbuild. simpl. rewrite Hres. simpl.
    destruct (is_solution res).
    + destruct (get_solve_status res =? "Optimal")%string;
        do 3 eexists; (split; [reflexivity | discriminate]).
    + do 3 eexists. split; [reflexivity | discriminate].
Qed.

Lemma successor_zero_shaped : shaped 0 2 Samples.successor_zero_instance.
Proof.
  unfold shaped, row_shaped; simpl.
  repeat split; try (unfold len; simpl; lia);
    repeat constructor; unfold len; simpl; lia.
Qed.

Lemma successor_zero_is_last_task_witness :
  build_model Samples.successor_zero_instance
  = Return (expected_model Samples.successor_zero_instance) /\
  In (end_before_start {| iv_name := "T1"; iv_size := 3 |}
                       {| iv_name := "T2"; iv_size := 2 |})
     (expected_model Samples.successor_zero_instance) /\
  exists makespan status solve_time,
    fst (solve_rcpsp Samples.proves_optimal_5 Samples.ticking Samples.sample_fs
           "data/j9010_3.data" Samples.fresh)
    = Return (makespan, status, solve_time) /\
    status <> "error".
Proof.
  destruct (successor_zero_is_last_task Samples.successor_zero_instance
              ltac:(simpl; lia) successor_zero_shaped)
    as (Hbuild & _ & _ & Hedge & Hstatus).
  split; [exact Hbuild | split].
  - apply (Hedge 0); [simpl; lia | left; reflexivity].
  - eapply (Hstatus Samples.proves_optimal_5 Samples.ticking Samples.sample_fs
              "data/j9010_3.data" Samples.successor_zero Samples.fresh);
      reflexivity.
Defined.

(* ================================================================== *)
(** ** A demand above the capacity *)

(** C1, as the code has it. [solve_rcpsp] compares no demand with a
    capacity. For a file that follows the format and holds a task whose
    demand for a resource exceeds its capacity, the model is built, its
    cumulative constraint for that resource holds the pulse of that task,
    and the answer is the verdict on what the solver does with it: no
    makespan and ["unknown"] when the solver reports no solution, ["error"]
    when the solver raises. *)
Theorem over_demand_reaches_solver (cp_solve : solver) (clock : nat -> Q)
    (fs : string -> option string) (data_file text : string) (w : World)
    (i : instance) (t r : Z) :
  fs data_file = Some text ->
  instance_of_text text = Return i ->
  shaped 1 (NB_TASKS i) i ->
  0 <= t < NB_TASKS i ->
  0 <= r < NB_RESOURCES i ->
  0 <= capacity i r < task_demand i t r ->
  model_of_text text = Return (expected_model i) /\
  In (sum_le (expected_pulses i r) (capacity i r)) (expected_model i) /\
  In {| pulse_var := task i t; pulse_height := task_demand i t r |}
     (expected_pulses i r) /\
  (exists solve_time,
     fst (solve_rcpsp cp_solve clock fs data_file w)
     = Return (verdict (cp_solve (expected_model i) TIME_PER_INSTANCE "Quiet"),
               solve_time)) /\
  (forall res,
     cp_solve (expected_model i) TIME_PER_INSTANCE "Quiet" = Return res ->
     is_solution res = false ->
     exists solve_time,
       fst (solve_rcpsp cp_solve clock fs data_file w)
       = Return (None, "unknown", solve_time)) /\
  (forall e,
     cp_solve (expected_model i) TIME_PER_INSTANCE "Quiet" = Raise e ->
     exists solve_time,
       fst (solve_rcpsp cp_solve clock fs data_file w)
       = Return (None, "error", solve_time)).
Proof.
  intros Hfs Hi Hshape Ht Hr Hover.
  assert (HN : 0 <= NB_TASKS i) by lia.
  assert (Hbuild : build_model i = Return (expected_model i))
    by (apply (build_model_shaped 1 (NB_TASKS i));
        [exact Hshape | lia | lia | lia]).
  assert (Hrun : fst (solve_rcpsp cp_solve clock fs data_file w)
                 = Return (verdict (cp_solve (expected_model i)
                                      TIME_PER_INSTANCE "Quiet"),
                           (clock (S (clock_reads w)) - clock (clock_reads w))%Q)).
  { rewrite solve_rcpsp_returns.
    unfold solve_outcome, open_read, model_of_text. rewrite Hfs. simpl.
    rewrite Hi. simpl. rewrite Hbuild. reflexivity. }
  repeat match goal with |- _ /\ _ => split end.
  - unfold model_of_text. rewrite Hi. exact Hbuild.
  - unfold expected_model. apply in_or_app. right. apply in_or_app. left.
    unfold expected_capacities. apply in_map_iff.
    exists r. split; [reflexivity | apply in_range; exact Hr].
  - unfold expected_pulses. apply in_map_iff.
    exists t. split; [reflexivity |]. apply filter_In.
    split; [apply in_range; exact Ht | apply Z.ltb_lt; lia].
  - eexists. exact Hrun.
  - intros res Hres Hno. rewrite Hrun, Hres. simpl. rewrite Hno.
    eexists. reflexivity.
  - intros e He. rewrite Hrun, He. eexists. reflexivity.
Qed.

Lemma demand_over_capacity_shaped :
  shaped 1 1 Samples.demand_over_capacity_instance.
Proof.
  unfold shaped, row_shaped; simpl.
  repeat split; try (unfold len; simpl; lia);
    repeat constructor; unfold len; simpl; lia.
Qed.

Lemma over_demand_reaches_solver_witness :
  model_of_text Samples.demand_over_capacity
  = Return (expected_model Samples.demand_over_capacity_instance) /\
  exists solve_time,
    fst (solve_rcpsp Samples.reports_infeasible Samples.ticking
           Samples.sample_fs "data/j9010_5.data" Samples.fresh)
    = Return (None, "unknown", solve_time).
Proof.
  destruct (over_demand_reaches_solver Samples.reports_infeasible
              Samples.ticking Samples.sample_fs "data/j9010_5.data"
              Samples.demand_over_capacity Samples.fresh
              Samples.demand_over_capacity_instance 0 0
              eq_refl eq_refl demand_over_capacity_shaped
              ltac:(simpl; lia) ltac:(simpl; lia)
              ltac:(vm_compute; split; [discriminate | reflexivity]))
    as (Hm & _ & _ & _ & Hunknown & _).
  split; [exact Hm |].
  eapply Hunknown; reflexivity.
Defined.

(** C1 as stated fails: in [demand_over_capacity] the only task asks 3 of
    a resource of capacity 2; the model is built and solved, and with no
    solution found the status is ["unknown"], not ["error"]. *)
Lemma over_demand_not_detected :
  instance_of_text Samples.demand_over_capacity
  = Return Samples.demand_over_capacity_instance /\
  capacity Samples.demand_over_capacity_instance 0 = 2 /\
  task_demand Samples.demand_over_capacity_instance 0 0 = 3 /\
  build_model Samples.demand_over_capacity_instance
  = Return [sum_le [{| pulse_var := {| iv_name := "T1"; iv_size := 4 |};
                       pulse_height := 3 |}] 2;
            minimize_max_end_of [{| iv_name := "T1"; iv_size := 4 |}]] /\
  fst (solve_rcpsp Samples.reports_infeasible Samples.ticking Samples.sample_fs
         "data/j9010_5.data" Samples.fresh)
  = Return (None, "unknown", 1%Q).
Proof. repeat split; vm_compute; reflexivity. Qed.

(* ================================================================== *)
(** ** The sample files *)

(** [read_tasks] reads one line per element of the range. *)
Lemma read_tasks_length (rng : list Z) :
  forall (f : string) (rows : list (list Z)),
    read_tasks rng f = Return rows -> len rows = len rng.
Proof.
  induction rng as [|k rng IH]; intros f rows H; simpl in H.
  - inversion H. reflexivity.
  - destruct (readline f) as [l f'].
    destruct (int_line l) as [r|e]; simpl in H; [| discriminate].
    destruct (read_tasks rng f') as [rows'|e] eqn:E; simpl in H; [| discriminate].
    inversion H. unfold len in *. cbn [List.length].
    specialize (IH f' rows' E). lia.
Qed.

(** The first row is the first line left, read by [int_line]. *)
Lemma read_tasks_first (k : Z) (rng : list Z) (f : string)
    (rows : list (list Z)) :
  read_tasks (k :: rng) f = Return rows ->
  exists r rows',
    rows = r :: rows' /\ int_line (fst (readline f)) = Return r /\
    read_tasks rng (snd (readline f)) = Return rows'.
Proof.
  simpl. destruct (readline f) as [l f']. simpl. intros H.
  destruct (int_line l) as [r|e]; simpl in H; [| discriminate].
  destruct (read_tasks rng f') as [rows'|e]; simpl in H; [| discriminate].
  inversion H. exists r, rows'. repeat split.
Qed.

(** A file that was read has as many task rows as its header announces. *)
Lemma instance_of_text_tasks (text : string) (i : instance) :
  instance_of_text text = Return i ->
  len (TASKS i) = Z.max 0 (NB_TASKS i).
Proof.
  unfold instance_of_text, read_body.
  destruct (readline text) as [l1 f1].
  destruct (read_header (split l1)) as [[n r]|e]; simpl; [| discriminate].
  destruct (readline f1) as [l2 f2].
  destruct (int_line l2) as [caps|e]; simpl; [| discriminate].
  destruct (read_tasks (range n) f2) as [rows|e] eqn:E; simpl; [| discriminate].
  intros H. inversion H. simpl.
  rewrite (read_tasks_length _ _ _ E). unfold len. rewrite length_range. lia.
Qed.

Example two_tasks_parsed :
  instance_of_text Samples.two_tasks = Return Samples.two_tasks_instance.
Proof. vm_compute. reflexivity. Qed.

Example two_tasks_miscounted_parsed :
  instance_of_text Samples.two_tasks_miscounted
  = Return Samples.two_tasks_miscounted_instance.
Proof. vm_compute. reflexivity. Qed.

Example successor_three_parsed :
  instance_of_text Samples.successor_three
  = Return Samples.successor_three_instance.
Proof. vm_compute. reflexivity. Qed.

(** The spec's two-task scenario: the file is solved and the solver's
    optimum is reported. *)
Example two_tasks_solved :
  solve_rcpsp Samples.proves_optimal_5 Samples.ticking Samples.sample_fs
    "data/j9010_1.data" Samples.fresh
  = (Return (Some 5, "optimal", 1%Q),
     {| stdout :=
          ["Solving model for j9010_1.data with 900 seconds limit (no bounds)...";
           "Optimal solution found for j9010_1.data";
           "Makespan = 5"];
        csv_rows := [];
        clock_reads := 2 |}).
Proof. vm_compute. reflexivity. Qed.

(* ================================================================== *)
(** * Further properties of [solve_rcpsp] *)

Section SolveMore.

Variable cp_solve : solver.
Variable clock : nat -> Q.
Variable fs : string -> option string.

(** The lines added to [base]: the witness of a goal
    [exists out, printed = base ++ out /\ ...]. *)
Ltac lines_after printed base :=
  lazymatch printed with
  | base => constr:(@nil string)
  | ?a ++ ?b => let s := lines_after a base in constr:(s ++ b)
  end.

Ltac printed_after base :=
  lazymatch goal with
  | |- exists out, ?printed = base ++ out /\ _ =>
      let s := lines_after printed base in
      exists s; split;
      [ rewrite <- ?app_assoc; reflexivity | split; reflexivity ]
  end.

(** The lines printed before the handler's: nothing, the note about the
    bound, or the note and the line that announces the solve. *)
Ltac after_note data_file :=
  first
    [ exists []; reflexivity
    | exists [bound_note data_file]; rewrite <- ?app_assoc; reflexivity ].

Ltac after_note_and_start data_file :=
  first
    [ eexists [_]; rewrite <- ?app_assoc; reflexivity
    | eexists [bound_note data_file; _]; rewrite <- ?app_assoc; reflexivity ].

Ltac run_solve :=
  unfold solve_rcpsp, solve_rcpsp_try, solve_rcpsp_except, read_instance,
    classify, try_except, io_bind, io_ret, lift, time_time, print, open_read;
  simpl.

(** X1. What [solve_rcpsp] does to the world: it reads the clock twice, leaves
    the rows of the CSV file alone and only adds lines to the standard
    output. *)
Theorem solve_rcpsp_frame (data_file : string) (w : World) :
  exists out,
    stdout (snd (solve_rcpsp cp_solve clock fs data_file w)) = stdout w ++ out /\
    csv_rows (snd (solve_rcpsp cp_solve clock fs data_file w)) = csv_rows w /\
    clock_reads (snd (solve_rcpsp cp_solve clock fs data_file w))
    = S (S (clock_reads w)).
Proof.
  run_solve.
  destruct (fs data_file) as [text|]; simpl; [| printed_after (stdout w)].
  destruct (readline text) as [l1 f1]; simpl.
  destruct (read_header (split l1)) as [[n r]|e]; simpl;
    [| printed_after (stdout w)].
  destruct (2 <? len (split l1)); simpl;
    (destruct (read_body n r f1) as [inst|e]; simpl;
       [| printed_after (stdout w)];
     destruct (build_model inst) as [m|e]; simpl;
       [| printed_after (stdout w)];
     destruct (cp_solve m TIME_PER_INSTANCE "Quiet") as [res|e]; simpl;
       [| printed_after (stdout w)];
     destruct (is_solution res); simpl;
       [| printed_after (stdout w)];
     destruct (get_solve_status res =? "Optimal")%string; simpl;
     destruct (first_objective (get_objective_values res)); simpl;
     printed_after (stdout w)).
Qed.

(** The handler, for the exception [e] of the model. *)
Lemma handler_reports (data_file : string) (w : World) (e : exn) :
  solve_outcome cp_solve fs data_file = Raise e ->
  exists out,
    solve_rcpsp cp_solve clock fs data_file w
    = (Return (None, "error",
               (clock (S (clock_reads w)) - clock (clock_reads w))%Q),
       {| stdout := stdout w ++ out
                      ++ [("Error solving " ++ data_file ++ ": " ++ exn_str e)%string];
          csv_rows := csv_rows w;
          clock_reads := S (S (clock_reads w)) |}).
Proof.
  unfold solve_outcome, model_of_text, instance_of_text.
  run_solve.
  destruct (fs data_file) as [text|]; simpl.
  - destruct (readline text) as [l1 f1]; simpl.
    destruct (read_header (split l1)) as [[n r]|e0]; simpl.
    + destruct (2 <? len (split l1)); simpl;
        (destruct (read_body n r f1) as [inst|e1]; simpl;
           [| intros [= <-]; after_note data_file];
         destruct (build_model inst) as [m|e2]; simpl;
           [| intros [= <-]; after_note data_file];
         destruct (cp_solve m TIME_PER_INSTANCE "Quiet") as [res|e3]; simpl;
           [discriminate | intros [= <-]; after_note_and_start data_file]).
    + intros [= <-]. exists []. reflexivity.
  - intros [= <-]. exists []. reflexivity.
Qed.

(** X2. When reading the file raises (a first line with fewer than two
    tokens, a token that is no integer), when [TASKS[t][0]] raises on a task
    line without token, or when [mdl.solve] raises, the handler has the last
    word: the last line printed is [Error solving <path>: <str(e)>] for the
    exception [e] that was raised, with the path as given (not the file
    name), and the result is [(None, "error", elapsed)] after two readings
    of the clock. *)
Theorem error_is_reported (data_file text : string) (w : World) (e : exn) :
  fs data_file = Some text ->
  instance_of_text text = Raise e
  \/ (exists i, instance_of_text text = Return i /\ DURATIONS i = Raise e)
  \/ (exists m, model_of_text text = Return m
                /\ cp_solve m TIME_PER_INSTANCE "Quiet" = Raise e) ->
  exists out,
    solve_rcpsp cp_solve clock fs data_file w
    = (Return (None, "error",
               (clock (S (clock_reads w)) - clock (clock_reads w))%Q),
       {| stdout := stdout w ++ out
                      ++ [("Error solving " ++ data_file ++ ": " ++ exn_str e)%string];
          csv_rows := csv_rows w;
          clock_reads := S (S (clock_reads w)) |}).
Proof.
  intros Hfs Hraise. apply handler_reports.
  unfold solve_outcome, open_read. rewrite Hfs. simpl.
  destruct Hraise as [Hread | [(i & Hread & Hdur) | (m & Hm & Hsolve)]].
  - unfold model_of_text. rewrite Hread. reflexivity.
  - unfold model_of_text, build_model. rewrite Hread. simpl.
    rewrite Hdur. reflexivity.
  - rewrite Hm. simpl. exact Hsolve.
Qed.

(** X3. A missing or unreadable file: one line is printed, the solver's answer
    plays no part, and the result is [(None, "error", elapsed)]. *)
Theorem unreadable_file_is_error (data_file : string) (w : World) :
  fs data_file = None ->
  exists e,
    exn_class e = OSError /\
    solve_rcpsp cp_solve clock fs data_file w
    = (Return (None, "error",
               (clock (S (clock_reads w)) - clock (clock_reads w))%Q),
       {| stdout := stdout w
                      ++ [("Error solving " ++ data_file ++ ": " ++ exn_str e)%string];
          csv_rows := csv_rows w;
          clock_reads := S (S (clock_reads w)) |}).
Proof.
  intros Hfs.
  exists (Exn OSError ("[Errno 2] No such file or directory: '"
                         ++ data_file ++ "'")).
  split; [reflexivity |].
  run_solve. rewrite Hfs. reflexivity.
Qed.

(** X4. No makespan without a solution: the statuses ["unknown"] and ["error"]
    come with [None], and a makespan that is returned is the first objective
    value of a solution, with status ["optimal"] or ["feasible"]. *)
Theorem makespan_needs_solution (data_file : string) (w : World) :
  exists makespan status solve_time,
    fst (solve_rcpsp cp_solve clock fs data_file w)
    = Return (makespan, status, solve_time) /\
    (status = "unknown" \/ status = "error" -> makespan = None) /\
    (forall v, makespan = Some v ->
       (status = "optimal" \/ status = "feasible") /\
       exists res values,
         solve_outcome cp_solve fs data_file = Return res /\
         is_solution res = true /\
         get_objective_values res = Some (v :: values)).
Proof.
  rewrite solve_rcpsp_returns.
  destruct (solve_outcome cp_solve fs data_file) as [res|e]; simpl.
  - destruct (is_solution res) eqn:Es.
    + do 3 eexists. split; [reflexivity |]. split.
      * destruct (get_solve_status res =? "Optimal")%string;
          intros [H|H]; discriminate.
      * intros v Hv. split.
        -- destruct (get_solve_status res =? "Optimal")%string; auto.
        -- unfold first_objective in Hv.
           destruct (get_objective_values res) as [[|v0 values]|] eqn:Eo;
             try discriminate.
           inversion Hv; subst. exists res, values. repeat split; assumption.
    + do 3 eexists. split; [reflexivity |]. split; [reflexivity |].
      intros v Hv. discriminate.
  - do 3 eexists. split; [reflexivity |]. split; [reflexivity |].
    intros v Hv. discriminate.
Qed.

(** X5. A solution without objective value keeps its status and has no
    makespan: the script only prints a warning. *)
Theorem solution_without_objective (data_file : string) (w : World)
    (res : CpoSolveResult) :
  solve_outcome cp_solve fs data_file = Return res ->
  is_solution res = true ->
  first_objective (get_objective_values res) = None ->
  exists status solve_time,
    fst (solve_rcpsp cp_solve clock fs data_file w)
    = Return (None, status, solve_time) /\
    (status = "optimal" \/ status = "feasible") /\
    In ("Warning: Solution found but no objective value for "
          ++ path_name data_file)%string
       (stdout (snd (solve_rcpsp cp_solve clock fs data_file w))).
Proof.
  intros Ho Hs Hv.
  rewrite solve_rcpsp_returns, Ho. simpl. rewrite Hs, Hv.
  do 2 eexists. split; [reflexivity |]. split.
  - destruct (get_solve_status res =? "Optimal")%string; auto.
  - revert Ho. unfold solve_outcome, model_of_text, instance_of_text.
    run_solve.
    destruct (fs data_file) as [text|]; simpl; [| discriminate].
    destruct (readline text) as [l1 f1]; simpl.
    destruct (read_header (split l1)) as [[n r]|e]; simpl; [| discriminate].
    destruct (2 <? len (split l1)); simpl;
      (destruct (read_body n r f1) as [inst|e]; simpl; [| discriminate];
       destruct (build_model inst) as [m|e]; simpl; [| discriminate];
       destruct (cp_solve m TIME_PER_INSTANCE "Quiet") as [res'|e]; simpl;
         [| discriminate];
       intros [= ->]; rewrite Hs; simpl;
       destruct (get_solve_status res =? "Optimal")%string; simpl;
       rewrite Hv; simpl; rewrite !in_app_iff; simpl; tauto).
Qed.

End SolveMore.

Lemma unreadable_file_is_error_witness :
  exists e,
    exn_class e = OSError /\
    solve_rcpsp Samples.proves_optimal_5 Samples.ticking Samples.sample_fs
      "data/none.data" Samples.fresh
    = (Return (None, "error", (Samples.ticking 1 - Samples.ticking 0)%Q),
       {| stdout := [("Error solving data/none.data: " ++ exn_str e)%string];
          csv_rows := [];
          clock_reads := 2 |}).
Proof.
  exact (unreadable_file_is_error Samples.proves_optimal_5 Samples.ticking
           Samples.sample_fs "data/none.data" Samples.fresh eq_refl).
Defined.

(* ================================================================== *)
(** * Malformed files *)

(** Whatever stops the way to the solver gives [(None, "error", _)]. *)
Lemma raise_is_error (cp_solve : solver) (clock : nat -> Q)
    (fs : string -> option string) (data_file : string) (w : World) :
  is_return (solve_outcome cp_solve fs data_file) = false ->
  fst (solve_rcpsp cp_solve clock fs data_file w)
  = Return (None, "error",
            (clock (S (clock_reads w)) - clock (clock_reads w))%Q).
Proof.
  intros H. rewrite solve_rcpsp_returns.
  destruct (solve_outcome cp_solve fs data_file); [discriminate | reflexivity].
Qed.

Lemma bad_text_raises (cp_solve : solver) (fs : string -> option string)
    (data_file text : string) :
  fs data_file = Some text ->
  is_return (model_of_text text) = false ->
  is_return (solve_outcome cp_solve fs data_file) = false.
Proof.
  intros Hfs H. unfold solve_outcome, open_read. rewrite Hfs. simpl.
  destruct (model_of_text text); [discriminate | reflexivity].
Qed.

Lemma bad_instance_raises (text : string) :
  is_return (instance_of_text text) = false ->
  is_return (model_of_text text) = false.
Proof.
  unfold model_of_text. destruct (instance_of_text text);
    [discriminate | reflexivity].
Qed.

Lemma bad_model_raises (text : string) (i : instance) :
  instance_of_text text = Return i ->
  is_return (build_model i) = false ->
  is_return (model_of_text text) = false.
Proof. intros Hi H. unfold model_of_text. rewrite Hi. exact H. Qed.

(** [instance_of_text] in terms of the lines of the text. *)
Lemma instance_of_text_lines (text : string) :
  instance_of_text text
  = (h <- read_header (split (line_at 0 text)) ;;
     caps <- int_line (line_at 1 text) ;;
     tasks <- read_tasks (range (fst h)) (skip_lines 2 text) ;;
     Return {| NB_TASKS := fst h; NB_RESOURCES := snd h;
               CAPACITIES := caps; TASKS := tasks |}).
Proof.
  unfold instance_of_text, read_body, line_at. simpl.
  destruct (readline text) as [l1 f1]. simpl.
  destruct (read_header (split l1)) as [h|e]; simpl; [| reflexivity].
  destruct (readline f1) as [l2 f2]. reflexivity.
Qed.

Lemma skip_lines_add (j k : nat) (f : string) :
  skip_lines (j + k) f = skip_lines k (skip_lines j f).
Proof.
  revert f. induction j as [|j IH]; intros f; simpl; [reflexivity | apply IH].
Qed.

Lemma line_at_add (j k : nat) (f : string) :
  line_at (j + k) f = line_at k (skip_lines j f).
Proof. unfold line_at. rewrite skip_lines_add. reflexivity. Qed.

(** [read_tasks] reads the lines [0 .. len(rng)-1] of the text left. *)
Lemma read_tasks_ext (rng : list Z) :
  forall f f' : string,
    (forall k, (k < List.length rng)%nat -> line_at k f = line_at k f') ->
    read_tasks rng f = read_tasks rng f'.
Proof.
  induction rng as [|x rng IH]; intros f f' H; simpl; [reflexivity |].
  pose proof (H 0%nat ltac:(simpl; lia)) as H0. unfold line_at in H0.
  simpl in H0.
  assert (Hrest : read_tasks rng (snd (readline f))
                  = read_tasks rng (snd (readline f'))).
  { apply IH. intros k Hk.
    apply (H (S k)). simpl. lia. }
  destruct (readline f) as [l g], (readline f') as [l' g']. simpl in *.
  subst l'. rewrite Hrest. reflexivity.
Qed.

Lemma read_tasks_raises (rng : list Z) :
  forall (f : string) (k : nat),
    (k < List.length rng)%nat ->
    is_return (int_line (line_at k f)) = false ->
    is_return (read_tasks rng f) = false.
Proof.
  induction rng as [|x rng IH]; intros f k Hk Hbad; simpl in *; [lia |].
  destruct k as [|k].
  - unfold line_at in Hbad. simpl in Hbad.
    destruct (readline f) as [l g]. simpl in Hbad.
    destruct (int_line l); [discriminate | reflexivity].
  - assert (Hrest : is_return (read_tasks rng (snd (readline f))) = false)
      by (apply (IH _ k); [lia | exact Hbad]).
    destruct (readline f) as [l g]. simpl in Hrest.
    destruct (int_line l); simpl; [| reflexivity].
    destruct (read_tasks rng g); [discriminate | reflexivity].
Qed.

Lemma read_tasks_nth (rng : list Z) :
  forall (f : string) (rows : list (list Z)) (k : nat),
    read_tasks rng f = Return rows ->
    (k < List.length rng)%nat ->
    int_line (line_at k f) = Return (nth k rows []).
Proof.
  induction rng as [|x rng IH]; intros f rows k H Hk; simpl in *; [lia |].
  unfold line_at. destruct k as [|k]; simpl.
  - destruct (readline f) as [l g]. simpl.
    destruct (int_line l) as [r|e]; simpl in H; [| discriminate].
    destruct (read_tasks rng g); simpl in H; [| discriminate].
    inversion H. reflexivity.
  - destruct (readline f) as [l g]. simpl.
    destruct (int_line l) as [r|e]; simpl in H; [| discriminate].
    destruct (read_tasks rng g) as [rows'|] eqn:E; simpl in H; [| discriminate].
    inversion H. simpl. apply (IH g rows' k E). lia.
Qed.

Lemma int_line_bad_token (l tok : string) :
  In tok (split l) -> literal_val tok = None ->
  is_return (int_line l) = false.
Proof.
  intros Hin Hbad. apply in_split in Hin as (toks & toks' & Hsplit).
  exact (int_line_raises l toks toks' tok Hsplit Hbad).
Qed.

Lemma read_header_short (toks : list string) :
  len toks < 2 -> is_return (read_header toks) = false.
Proof.
  intros H. destruct toks as [|a [|b rest]].
  - reflexivity.
  - unfold read_header. simpl. destruct (int a); reflexivity.
  - unfold len in H. cbn [List.length] in H. lia.
Qed.

Lemma read_header_bad_token (toks : list string) (tok : string) :
  In tok (firstn 2 toks) -> literal_val tok = None ->
  is_return (read_header toks) = false.
Proof.
  intros Hin Hbad. rewrite read_header_firstn.
  destruct toks as [|a [|b rest]]; simpl in *.
  - contradiction.
  - reflexivity || (unfold read_header; simpl; destruct (int a); reflexivity).
  - unfold read_header. simpl.
    destruct Hin as [<- | [<- | []]].
    + unfold int. rewrite Hbad. reflexivity.
    + destruct (int a); simpl; [| reflexivity].
      unfold int. rewrite Hbad. reflexivity.
Qed.

(** X6. A first line with fewer than two tokens, as in an empty file, gives
    [(None, "error", _)]. *)
Theorem short_header_is_error (cp_solve : solver) (clock : nat -> Q)
    (fs : string -> option string) (data_file text : string) (w : World) :
  fs data_file = Some text ->
  len (split (line_at 0 text)) < 2 ->
  exists solve_time,
    fst (solve_rcpsp cp_solve clock fs data_file w)
    = Return (None, "error", solve_time).
Proof.
  intros Hfs Hshort. eexists. apply raise_is_error.
  apply (bad_text_raises _ _ _ text Hfs), bad_instance_raises.
  rewrite instance_of_text_lines.
  pose proof (read_header_short _ Hshort) as H.
  destruct (read_header (split (line_at 0 text))); [discriminate | reflexivity].
Qed.

(** X7. A token that is not an integer literal, among the first two of the
    header, on the line of the capacities or on one of the [NB_TASKS] task
    lines, gives [(None, "error", _)]; the tokens of the header after the
    second are not concerned. *)
Theorem non_integer_token_is_error (cp_solve : solver) (clock : nat -> Q)
    (fs : string -> option string) (data_file text tok : string) (w : World) :
  fs data_file = Some text ->
  literal_val tok = None ->
  In tok (firstn 2 (split (line_at 0 text)))
  \/ In tok (split (line_at 1 text))
  \/ (exists n r t,
        read_header (split (line_at 0 text)) = Return (n, r) /\
        (t < Z.to_nat n)%nat /\
        In tok (split (line_at (2 + t) text))) ->
  exists solve_time,
    fst (solve_rcpsp cp_solve clock fs data_file w)
    = Return (None, "error", solve_time).
Proof.
  intros Hfs Hbad Hwhere. eexists. apply raise_is_error.
  apply (bad_text_raises _ _ _ text Hfs), bad_instance_raises.
  rewrite instance_of_text_lines.
  destruct Hwhere as [H | [H | (n & r & t & Hh & Ht & H)]].
  - pose proof (read_header_bad_token _ _ H Hbad) as Hr.
    destruct (read_header (split (line_at 0 text)));
      [discriminate | reflexivity].
  - destruct (read_header (split (line_at 0 text))); simpl; [| reflexivity].
    pose proof (int_line_bad_token _ _ H Hbad) as Hr.
    destruct (int_line (line_at 1 text)); [discriminate | reflexivity].
  - rewrite Hh. simpl.
    destruct (int_line (line_at 1 text)); simpl; [| reflexivity].
    assert (Hr : is_return (read_tasks (range n) (skip_lines 2 text)) = false).
    { apply (read_tasks_raises _ _ t).
      - rewrite length_range. exact Ht.
      - rewrite <- (line_at_add 2 t). apply (int_line_bad_token _ tok); assumption. }
    simpl in Hr.
    destruct (read_tasks (range n) _); [discriminate | reflexivity].
Qed.

Lemma non_integer_token_is_error_witness :
  exists solve_time,
    fst (solve_rcpsp Samples.proves_optimal_5 Samples.ticking
           (fun _ => Some (Samples.text_of_lines
                             ["2 1"; "1"; "3 1 1 2"; "2 one 0"]))
           "data/j9010_1.data" Samples.fresh)
    = Return (None, "error", solve_time).
Proof.
  apply (non_integer_token_is_error Samples.proves_optimal_5 Samples.ticking
           (fun _ => Some (Samples.text_of_lines
                             ["2 1"; "1"; "3 1 1 2"; "2 one 0"]))
           "data/j9010_1.data"
           (Samples.text_of_lines ["2 1"; "1"; "3 1 1 2"; "2 one 0"])
           "one" Samples.fresh eq_refl eq_refl).
  right. right. exists 2, 1, 1%nat.
  split; [reflexivity | split; [simpl; lia | simpl; tauto]].
Defined.

Lemma short_header_is_error_witness :
  exists solve_time,
    fst (solve_rcpsp Samples.proves_optimal_5 Samples.ticking
           (fun _ => Some EmptyString) "data/j9010_1.data" Samples.fresh)
    = Return (None, "error", solve_time).
Proof.
  apply (short_header_is_error Samples.proves_optimal_5 Samples.ticking
           (fun _ => Some EmptyString) "data/j9010_1.data" EmptyString
           Samples.fresh eq_refl).
  reflexivity.
Defined.

(** An instance that was read has the header's numbers and as many rows as
    the range of [NB_TASKS]. *)
Lemma instance_of_text_fields (text : string) (i : instance) :
  instance_of_text text = Return i ->
  read_header (split (line_at 0 text)) = Return (NB_TASKS i, NB_RESOURCES i) /\
  int_line (line_at 1 text) = Return (CAPACITIES i) /\
  read_tasks (range (NB_TASKS i)) (skip_lines 2 text) = Return (TASKS i).
Proof.
  rewrite instance_of_text_lines.
  destruct (read_header (split (line_at 0 text))) as [[n r]|e]; simpl;
    [| discriminate].
  destruct (int_line (line_at 1 text)) as [caps|e]; simpl; [| discriminate].
  destruct (read_tasks (range n) _) as [rows|e] eqn:E; simpl; [| discriminate].
  intros H. inversion H. simpl. repeat split. exact E.
Qed.

Lemma DURATIONS_empty_row (i : instance) (t : Z) :
  0 <= t < NB_TASKS i ->
  getitem (TASKS i) t = Return [] ->
  is_return (DURATIONS i) = false.
Proof.
  intros Ht Hrow. unfold DURATIONS.
  apply comprehension_raises with (x := t); [apply in_range; exact Ht |].
  rewrite Hrow. reflexivity.
Qed.

(** X8. A task line without token among the [NB_TASKS] announced, be it blank
    or past the end of the file, gives [(None, "error", _)]. *)
Theorem blank_task_line_is_error (cp_solve : solver) (clock : nat -> Q)
    (fs : string -> option string) (data_file text : string) (w : World)
    (n r : Z) (t : nat) :
  fs data_file = Some text ->
  read_header (split (line_at 0 text)) = Return (n, r) ->
  (t < Z.to_nat n)%nat ->
  split (line_at (2 + t) text) = [] ->
  exists solve_time,
    fst (solve_rcpsp cp_solve clock fs data_file w)
    = Return (None, "error", solve_time).
Proof.
  intros Hfs Hh Ht Hblank. eexists. apply raise_is_error.
  apply (bad_text_raises _ _ _ text Hfs).
  destruct (instance_of_text text) as [i|e] eqn:Ei;
    [| apply bad_instance_raises; rewrite Ei; reflexivity].
  apply (bad_model_raises _ i Ei).
  destruct (instance_of_text_fields _ _ Ei) as (Hh' & _ & Hrows).
  rewrite Hh in Hh'. inversion Hh'; subst n r.
  pose proof (read_tasks_nth _ _ _ t Hrows
                ltac:(rewrite length_range; exact Ht)) as Hrow.
  rewrite <- (line_at_add 2 t) in Hrow.
  unfold int_line in Hrow. rewrite Hblank in Hrow. simpl in Hrow.
  inversion Hrow as [Hnth].
  pose proof (read_tasks_length _ _ _ Hrows) as Hlen.
  unfold len in Hlen. rewrite length_range in Hlen.
  assert (Hd : is_return (DURATIONS i) = false).
  { apply (DURATIONS_empty_row i (Z.of_nat t)); [lia |].
    rewrite (getitem_nth _ []) by (unfold len; lia).
    rewrite Nat2Z.id, <- Hnth. reflexivity. }
  unfold build_model. destruct (DURATIONS i); [discriminate | reflexivity].
Qed.

Lemma skip_lines_eof (k : nat) : skip_lines k EmptyString = EmptyString.
Proof. induction k as [|k IH]; simpl; [reflexivity | exact IH]. Qed.

(** Past the end of the text every line is empty. *)
Lemma line_at_eof (j k : nat) (text : string) :
  skip_lines j text = EmptyString -> line_at (j + k) text = EmptyString.
Proof.
  intros H. rewrite line_at_add, H. unfold line_at.
  rewrite skip_lines_eof. reflexivity.
Qed.

Lemma blank_task_line_is_error_witness :
  exists solve_time,
    fst (solve_rcpsp Samples.proves_optimal_5 Samples.ticking
           (fun _ => Some (Samples.text_of_lines ["2 1"; "1"; "3 1 1 2"]))
           "data/j9010_1.data" Samples.fresh)
    = Return (None, "error", solve_time).
Proof.
  exact (blank_task_line_is_error Samples.proves_optimal_5 Samples.ticking
           (fun _ => Some (Samples.text_of_lines ["2 1"; "1"; "3 1 1 2"]))
           "data/j9010_1.data"
           (Samples.text_of_lines ["2 1"; "1"; "3 1 1 2"])
           Samples.fresh 2 1 1%nat eq_refl eq_refl
           (Nat.lt_succ_diag_r 1) eq_refl).
Defined.

(** X9. The script reads the header, the capacities and [NB_TASKS] task lines,
    and nothing after them: two files with the same lines up to there give
    the same instance, hence the same model, makespan and status. *)
Theorem trailing_lines_ignored (cp_solve : solver) (clock clock' : nat -> Q)
    (fs : string -> option string) (p p' text text' : string) (w w' : World) :
  fs p = Some text ->
  fs p' = Some text' ->
  line_at 0 text = line_at 0 text' ->
  line_at 1 text = line_at 1 text' ->
  (forall n r t,
     read_header (split (line_at 0 text)) = Return (n, r) ->
     (t < Z.to_nat n)%nat ->
     line_at (2 + t) text = line_at (2 + t) text') ->
  instance_of_text text = instance_of_text text' /\
  exists makespan status t t',
    fst (solve_rcpsp cp_solve clock fs p w) = Return (makespan, status, t) /\
    fst (solve_rcpsp cp_solve clock' fs p' w') = Return (makespan, status, t').
Proof.
  intros Hp Hp' H0 H1 Htasks.
  assert (Hi : instance_of_text text = instance_of_text text').
  { rewrite !instance_of_text_lines, <- H0, <- H1.
    destruct (read_header (split (line_at 0 text))) as [[n r]|e] eqn:Eh;
      cbn [Py.bind fst snd]; [| reflexivity].
    rewrite (read_tasks_ext (range n) (skip_lines 2 text) (skip_lines 2 text')).
    - reflexivity.
    - intros k Hk. rewrite length_range in Hk.
      rewrite <- !(line_at_add 2 k). apply (Htasks n r k eq_refl Hk). }
  split; [exact Hi |].
  assert (Ho : solve_outcome cp_solve fs p = solve_outcome cp_solve fs p').
  { unfold solve_outcome, open_read, model_of_text.
    rewrite Hp, Hp'. simpl. rewrite Hi. reflexivity. }
  rewrite !solve_rcpsp_returns, Ho.
  destruct (verdict (solve_outcome cp_solve fs p')) as [makespan status].
  do 4 eexists. split; reflexivity.
Qed.

(* ================================================================== *)
(** * Missing capacities and demands *)

Lemma comprehension_if_raises {A B} (cond : A -> result bool)
    (f : A -> result B) (xs : list A) (x : A) :
  In x xs -> is_return (cond x) = false ->
  is_return (comprehension_if cond f xs) = false.
Proof.
  induction xs as [|y xs IH]; intros Hin Hx; simpl in *.
  - contradiction.
  - destruct Hin as [-> | Hin].
    + destruct (cond x); [discriminate | reflexivity].
    + specialize (IH Hin Hx).
      destruct (cond y) as [[|]|]; simpl; [| exact IH | reflexivity].
      destruct (f y); simpl; [| reflexivity].
      destruct (comprehension_if cond f xs); simpl in *;
        [discriminate | reflexivity].
Qed.

Lemma bind_raises {A B} (m : result A) (k : A -> result B) :
  is_return m = false -> is_return (Py.bind m k) = false.
Proof. destruct m; [discriminate | reflexivity]. Qed.

(** Fewer capacities than [NB_RESOURCES]: building the model raises. *)
Lemma build_model_missing_capacity (i : instance) :
  len (CAPACITIES i) < NB_RESOURCES i ->
  is_return (build_model i) = false.
Proof.
  intros Hcap. unfold build_model.
  destruct (DURATIONS i) as [durations|]; simpl; [| reflexivity].
  destruct (DEMANDS i) as [demands|]; simpl; [| reflexivity].
  destruct (SUCCESSORS i) as [successors|]; simpl; [| reflexivity].
  destruct (make_tasks (NB_TASKS i) durations) as [tasks|]; simpl;
    [| reflexivity].
  destruct (precedence_constraints (NB_TASKS i) tasks successors); simpl;
    [| reflexivity].
  apply bind_raises. unfold capacity_constraints.
  apply comprehension_raises with (x := len (CAPACITIES i)).
  - apply in_range. unfold len in *. lia.
  - match goal with
    | |- is_return (Py.bind ?c _) = false => destruct c; simpl; [| reflexivity]
    end.
    rewrite getitem_out_of_range by lia. reflexivity.
Qed.

(** A task line with at least one token and at most [NB_RESOURCES] of them
    lacks a demand: building the model raises. *)
Lemma build_model_missing_demand (i : instance) (t : Z) (r : list Z) :
  0 <= t < NB_TASKS i ->
  getitem (TASKS i) t = Return r ->
  1 <= len r <= NB_RESOURCES i ->
  is_return (build_model i) = false.
Proof.
  intros Ht Hrow Hlen. unfold build_model.
  destruct (DURATIONS i) as [durations|]; simpl; [| reflexivity].
  destruct (DEMANDS i) as [demands|] eqn:Ed; simpl; [| reflexivity].
  destruct (SUCCESSORS i) as [successors|]; simpl; [| reflexivity].
  destruct (make_tasks (NB_TASKS i) durations) as [tasks|]; simpl;
    [| reflexivity].
  destruct (precedence_constraints (NB_TASKS i) tasks successors); simpl;
    [| reflexivity].
  apply bind_raises. unfold capacity_constraints.
  assert (Hitem : getitem demands t
                  = Return (slice r (Some 1) (Some (NB_RESOURCES i + 1)))).
  { unfold DEMANDS in Ed.
    eapply comprehension_range_item; [exact Ed | exact Ht |].
    cbv beta. rewrite Hrow. reflexivity. }
  assert (Hslice : len (slice r (Some 1) (Some (NB_RESOURCES i + 1))) = len r - 1).
  { unfold slice, clamp.
    destruct (Z.ltb_spec 1 0); [lia |].
    destruct (Z.ltb_spec (NB_RESOURCES i + 1) 0); [lia |].
    unfold len in *. rewrite length_firstn, length_skipn. lia. }
  apply comprehension_raises with (x := len r - 1);
    [apply in_range; lia |].
  apply bind_raises.
  apply comprehension_if_raises with (x := t); [apply in_range; exact Ht |].
  apply bind_raises. unfold demand. rewrite Hitem. simpl.
  rewrite getitem_out_of_range by lia. reflexivity.
Qed.

(** X10. A file that announces more resources than it gives capacities, or a
    task line that stops before its last demand, gives
    [(None, "error", _)]. *)
Theorem missing_capacity_or_demand_is_error (cp_solve : solver)
    (clock : nat -> Q) (fs : string -> option string)
    (data_file text : string) (w : World) (i : instance) :
  fs data_file = Some text ->
  instance_of_text text = Return i ->
  len (CAPACITIES i) < NB_RESOURCES i
  \/ (exists t r, 0 <= t < NB_TASKS i /\ getitem (TASKS i) t = Return r
                  /\ 1 <= len r <= NB_RESOURCES i) ->
  exists solve_time,
    fst (solve_rcpsp cp_solve clock fs data_file w)
    = Return (None, "error", solve_time).
Proof.
  intros Hfs Hi Hmiss. eexists. apply raise_is_error.
  apply (bad_text_raises _ _ _ text Hfs), (bad_model_raises _ i Hi).
  destruct Hmiss as [Hcap | (t & r & Ht & Hrow & Hlen)].
  - apply build_model_missing_capacity. exact Hcap.
  - apply (build_model_missing_demand i t r); assumption.
Qed.

Lemma missing_capacity_or_demand_is_error_witness :
  exists solve_time,
    fst (solve_rcpsp Samples.proves_optimal_5 Samples.ticking
           (fun _ => Some (Samples.text_of_lines
                             ["2 2"; "1 1"; "3 1 1 1 2"; "2 1"]))
           "data/j9010_1.data" Samples.fresh)
    = Return (None, "error", solve_time).
Proof.
  apply (missing_capacity_or_demand_is_error Samples.proves_optimal_5
           Samples.ticking
           (fun _ => Some (Samples.text_of_lines
                             ["2 2"; "1 1"; "3 1 1 1 2"; "2 1"]))
           "data/j9010_1.data"
           (Samples.text_of_lines ["2 2"; "1 1"; "3 1 1 1 2"; "2 1"])
           Samples.fresh
           {| NB_TASKS := 2; NB_RESOURCES := 2; CAPACITIES := [1; 1];
              TASKS := [[3; 1; 1; 1; 2]; [2; 1]] |}
           eq_refl eq_refl).
  right. exists 1, [2; 1].
  split; [simpl; lia | split; [reflexivity | unfold len; simpl; lia]].
Defined.

(* ================================================================== *)
(** ** The fields of a task line of the file *)

(** C6. For a file that [solve_rcpsp] reads as an instance of the
    format, the line of task [t + 1] (line [2 + t] of the file, counted from
    0) whose tokens are a first token, [NB_RESOURCES] demand tokens, a count
    and the rest is parsed thus: [TASKS[t]] is the row of the tokens' values,
    [DURATIONS[t]] is the value of the first token, [DEMANDS[t]] the values
    of the [NB_RESOURCES] demand tokens (tokens 2 to R+1), [SUCCESSORS[t]]
    the values of the tokens after the count (from position R+3), and each
    successor [s] is a task id between 1 and [NB_TASKS], for which the
    model holds [end_before_start(tasks[t], tasks[s-1])], [tasks[s-1]] being
    the task named [T<s>]. *)
Theorem task_line_fields (text : string) (i : instance) (t : nat)
    (td tns : string) (tdem tsucc : list string) :
  instance_of_text text = Return i ->
  shaped 1 (NB_TASKS i) i ->
  (t < Z.to_nat (NB_TASKS i))%nat ->
  split (line_at (2 + t) text) = td :: tdem ++ tns :: tsucc ->
  len tdem = NB_RESOURCES i ->
  exists d dem ns succ durations demands successors m,
    int td = Return d /\ comprehension int tdem = Return dem /\
    int tns = Return ns /\ comprehension int tsucc = Return succ /\
    len dem = NB_RESOURCES i /\
    getitem (TASKS i) (Z.of_nat t) = Return (d :: dem ++ ns :: succ) /\
    DURATIONS i = Return durations /\
    getitem durations (Z.of_nat t) = Return d /\
    DEMANDS i = Return demands /\
    getitem demands (Z.of_nat t) = Return dem /\
    SUCCESSORS i = Return successors /\
    getitem successors (Z.of_nat t) = Return succ /\
    model_of_text text = Return m /\
    forall s, In s succ ->
      1 <= s <= NB_TASKS i /\
      iv_name (task i (s - 1)) = ("T" ++ str_of_int s)%string /\
      In (end_before_start (task i (Z.of_nat t)) (task i (s - 1))) m.
Proof.
  intros Hread Hshape Ht Hsplit Hlen.
  destruct (instance_of_text_fields _ _ Hread) as (_ & _ & Hrows).
  pose proof (read_tasks_nth _ _ _ t Hrows
                ltac:(rewrite length_range; exact Ht)) as Hline.
  rewrite <- (line_at_add 2 t) in Hline.
  assert (Hrow : nth t (TASKS i) [] = row i (Z.of_nat t))
    by (unfold row; rewrite Nat2Z.id; reflexivity).
  rewrite Hrow in Hline.
  assert (Hbound : 0 <= Z.of_nat t < NB_TASKS i) by lia.
  destruct (task_row_fields i (Z.of_nat t) _ td tns tdem tsucc
              Hshape Hbound Hline Hsplit Hlen)
    as (d & dem & ns & succ & durations & demands & successors & m
        & Hd & Hdem & Hns & Hsucc & Hldem & Hfields & Hdur & Hdur_t
        & Hdems & Hdems_t & Hsuccs & Hsuccs_t & Hmodel & Hedges).
  exists d, dem, ns, succ, durations, demands, successors, m.
  repeat match goal with |- _ /\ _ => split end; try assumption.
  - rewrite (getitem_nth _ [])
      by (rewrite <- (proj1 Hshape); exact Hbound).
    rewrite Nat2Z.id, Hrow. f_equal. exact Hfields.
  - unfold model_of_text. rewrite Hread. exact Hmodel.
Qed.

Lemma task_line_fields_witness :
  exists d dem ns succ durations demands successors m,
    int "3" = Return d /\ comprehension int ["1"] = Return dem /\
    int "1" = Return ns /\ comprehension int ["2"] = Return succ /\
    len dem = 1 /\
    getitem [[3; 1; 1; 2]; [2; 1; 0]] 0 = Return (d :: dem ++ ns :: succ) /\
    DURATIONS Samples.two_tasks_instance = Return durations /\
    getitem durations 0 = Return d /\
    DEMANDS Samples.two_tasks_instance = Return demands /\
    getitem demands 0 = Return dem /\
    SUCCESSORS Samples.two_tasks_instance = Return successors /\
    getitem successors 0 = Return succ /\
    model_of_text Samples.two_tasks = Return m /\
    forall s, In s succ ->
      1 <= s <= 2 /\
      iv_name (task Samples.two_tasks_instance (s - 1)) = ("T" ++ str_of_int s)%string /\
      In (end_before_start (task Samples.two_tasks_instance 0)
                           (task Samples.two_tasks_instance (s - 1))) m.
Proof.
  exact (task_line_fields Samples.two_tasks Samples.two_tasks_instance 0
           "3" "1" ["1"] ["2"] eq_refl two_tasks_shaped
           (le_S 1 1 (le_n 1)) eq_refl eq_refl).
Defined.

(* ================================================================== *)
(** * The model that is built, for any file *)

Lemma getitem_In {A} (l : list A) (j : Z) (a : A) :
  getitem l j = Return a -> In a l.
Proof.
  unfold getitem.
  destruct ((0 <=? (if j <? 0 then j + len l else j))
            && ((if j <? 0 then j + len l else j) <? len l)); [| discriminate].
  destruct (nth_error l (Z.to_nat (if j <? 0 then j + len l else j))) eqn:E;
    [| discriminate].
  intros H. inversion H; subst. eapply nth_error_In. exact E.
Qed.

Lemma comprehension_Forall {A B} (f : A -> result B) (P : B -> Prop)
    (xs : list A) (ys : list B) :
  comprehension f xs = Return ys ->
  (forall x y, In x xs -> f x = Return y -> P y) ->
  Forall P ys.
Proof.
  intros H HP. apply comprehension_Return in H.
  induction H as [|x y xs ys Hxy Hall IH]; constructor.
  - apply (HP x y); [left; reflexivity | exact Hxy].
  - apply IH. intros x' y' Hin. apply HP. right. exact Hin.
Qed.

Lemma comprehension_if_Forall {A B} (cond : A -> result bool)
    (f : A -> result B) (P : B -> Prop) (xs : list A) :
  forall ys,
    comprehension_if cond f xs = Return ys ->
    (forall x y, In x xs -> cond x = Return true -> f x = Return y -> P y) ->
    Forall P ys.
Proof.
  induction xs as [|x xs IH]; intros ys H HP; simpl in H.
  - inversion H. constructor.
  - destruct (cond x) as [[|]|] eqn:Ec; simpl in H; [| | discriminate].
    + destruct (f x) as [y|] eqn:Ef; simpl in H; [| discriminate].
      destruct (comprehension_if cond f xs) as [ys'|] eqn:E; simpl in H;
        [| discriminate].
      inversion H; subst. constructor.
      * apply (HP x y); [left; reflexivity | exact Ec | exact Ef].
      * apply (IH ys' eq_refl). intros x' y' Hin. apply HP. right. exact Hin.
    + apply (IH ys H). intros x' y' Hin. apply HP. right. exact Hin.
Qed.

(** X11. Whatever the file holds, a model that is built has this shape: the
    precedence constraints, then one cumulative constraint per resource,
    then the objective over the interval variables, of which there are
    [NB_TASKS] (none when the number is negative). Every constraint speaks
    of these variables only, every capacity is one of the file's, and every
    pulse has a positive height: a task that asks nothing of a resource is
    not in its constraint. *)
Theorem built_model_well_formed (i : instance) (m : CpoModel) :
  build_model i = Return m ->
  exists tasks prec caps,
    m = prec ++ caps ++ [minimize_max_end_of tasks] /\
    len tasks = Z.max 0 (NB_TASKS i) /\
    len caps = Z.max 0 (NB_RESOURCES i) /\
    Forall (fun e => exists a b,
                e = end_before_start a b /\ In a tasks /\ In b tasks) prec /\
    Forall (fun e => exists pulses c,
                e = sum_le pulses c /\ In c (CAPACITIES i) /\
                Forall (fun p => In (pulse_var p) tasks /\ 0 < pulse_height p)
                       pulses) caps.
Proof.
  unfold build_model.
  destruct (DURATIONS i) as [durations|]; simpl; [| discriminate].
  destruct (DEMANDS i) as [demands|]; simpl; [| discriminate].
  destruct (SUCCESSORS i) as [successors|]; simpl; [| discriminate].
  destruct (make_tasks (NB_TASKS i) durations) as [tasks|] eqn:Et; simpl;
    [| discriminate].
  destruct (precedence_constraints (NB_TASKS i) tasks successors)
    as [prec|] eqn:Ep; simpl; [| discriminate].
  destruct (capacity_constraints (NB_TASKS i) (NB_RESOURCES i) tasks demands
              (CAPACITIES i)) as [caps|] eqn:Ec; simpl; [| discriminate].
  destruct (max_end_of tasks) as [makespan|] eqn:Em; simpl; [| discriminate].
  assert (makespan = tasks)
    by (destruct tasks; [discriminate | inversion Em; reflexivity]).
  subst makespan.
  intros H. inversion H; subst m. exists tasks, prec, caps.
  split; [reflexivity | split; [| split; [| split]]].
  - rewrite (comprehension_length _ _ _ Et). unfold len.
    rewrite length_range. lia.
  - unfold capacity_constraints in Ec.
    rewrite (comprehension_length _ _ _ Ec). unfold len.
    rewrite length_range. lia.
  - unfold precedence_constraints in Ep.
    destruct (comprehension _ (range (NB_TASKS i))) as [rows|] eqn:Er;
      simpl in Ep; [| discriminate].
    inversion Ep; subst prec. apply Forall_concat.
    eapply comprehension_Forall; [exact Er |].
    intros t row _ Hrow. cbv beta in Hrow.
    destruct (getitem successors t) as [succs|]; simpl in Hrow; [| discriminate].
    eapply comprehension_Forall; [exact Hrow |].
    intros s e _ He. cbv beta in He.
    destruct (getitem tasks t) as [a|] eqn:Ea; simpl in He; [| discriminate].
    destruct (getitem tasks (s - 1)) as [b|] eqn:Eb; simpl in He;
      [| discriminate].
    inversion He. exists a, b.
    repeat split; eapply getitem_In; eassumption.
  - unfold capacity_constraints in Ec.
    eapply comprehension_Forall; [exact Ec |].
    intros r e _ He. cbv beta in He.
    destruct (comprehension_if _ _ (range (NB_TASKS i))) as [pulses|] eqn:Epul;
      simpl in He; [| discriminate].
    destruct (getitem (CAPACITIES i) r) as [c|] eqn:Ecap; simpl in He;
      [| discriminate].
    inversion He. exists pulses, c.
    split; [reflexivity | split; [eapply getitem_In; exact Ecap |]].
    eapply comprehension_if_Forall; [exact Epul |].
    intros t p _ Hcond Hp. cbv beta in Hcond, Hp.
    destruct (demand demands t r) as [d|]; simpl in Hcond, Hp; [| discriminate].
    destruct (getitem tasks t) as [a|] eqn:Ea; simpl in Hp; [| discriminate].
    inversion Hp. simpl. inversion Hcond as [Hd]. apply Z.ltb_lt in Hd.
    split; [eapply getitem_In; exact Ea | exact Hd].
Qed.

Lemma built_model_well_formed_witness :
  exists tasks prec caps,
    expected_model Samples.two_tasks_instance
    = prec ++ caps ++ [minimize_max_end_of tasks] /\
    len tasks = 2 /\ len caps = 1 /\
    Forall (fun e => exists a b,
                e = end_before_start a b /\ In a tasks /\ In b tasks) prec /\
    Forall (fun e => exists pulses c,
                e = sum_le pulses c /\ In c [1] /\
                Forall (fun p => In (pulse_var p) tasks /\ 0 < pulse_height p)
                       pulses) caps.
Proof.
  exact (built_model_well_formed Samples.two_tasks_instance
           (expected_model Samples.two_tasks_instance) eq_refl).
Defined.

(* ================================================================== *)
(** * Decimal texts and the names of the interval variables *)

Lemma digit_val_chars :
  digit_val "0" = Some 0 /\ digit_val "1" = Some 1 /\ digit_val "2" = Some 2 /\
  digit_val "3" = Some 3 /\ digit_val "4" = Some 4 /\ digit_val "5" = Some 5 /\
  digit_val "6" = Some 6 /\ digit_val "7" = Some 7 /\ digit_val "8" = Some 8 /\
  digit_val "9" = Some 9.
Proof. repeat split. Qed.

Lemma digits_val_uint (d : Decimal.uint) :
  forall (acc : Z) (after_digit : bool),
    after_digit = true \/ d <> Decimal.Nil ->
    digits_val acc after_digit (NilEmpty.string_of_uint d)
    = Some (uint_val acc d).
Proof.
  induction d; intros acc after_digit Hd;
    try (simpl; rewrite IHd by (left; reflexivity); reflexivity).
  simpl. destruct Hd as [-> | Hd]; [reflexivity | contradiction].
Qed.

Ltac fold_digit :=
  match goal with
  | |- uint_val ?a _ = _ => let v := eval compute in a in change a with v
  end.

Lemma uint_val_pos (d : Decimal.uint) :
  forall acc : positive, uint_val (Zpos acc) d = Zpos (Pos.of_uint_acc d acc).
Proof.
  induction d; intros acc; cbn [uint_val Pos.of_uint_acc];
    try reflexivity; rewrite <- IHd; f_equal; lia.
Qed.

Lemma uint_val_zero (d : Decimal.uint) : uint_val 0 d = Z.of_uint d.
Proof.
  unfold Z.of_uint.
  induction d; cbn [uint_val Pos.of_uint]; try reflexivity; fold_digit;
    try exact IHd; rewrite uint_val_pos; reflexivity.
Qed.

(** [int(str(n)) == n]: what the script prints of an integer reads back as
    that integer. *)
Theorem int_of_str (n : Z) : int (str_of_int n) = Return n.
Proof.
  unfold int, str_of_int.
  assert (Hlit : literal_val (NilZero.string_of_int (Z.to_int n))
                 = Some (Z.of_int (Z.to_int n))).
  { destruct n as [|p|p]; [reflexivity | |].
    - unfold Z.to_int, NilZero.string_of_int, NilZero.string_of_uint, Z.of_int.
      assert (Hnn : Pos.to_uint p <> Decimal.Nil)
        by (intros E; apply (f_equal Pos.of_uint) in E;
            rewrite DecimalPos.Unsigned.of_to in E; discriminate).
      rewrite <- uint_val_zero.
      rewrite <- (digits_val_uint (Pos.to_uint p) 0 false) by (right; exact Hnn).
      destruct (Pos.to_uint p); try reflexivity. contradiction.
    - unfold Z.to_int, NilZero.string_of_int, NilZero.string_of_uint, Z.of_int.
      assert (Hnn : Pos.to_uint p <> Decimal.Nil)
        by (intros E; apply (f_equal Pos.of_uint) in E;
            rewrite DecimalPos.Unsigned.of_to in E; discriminate).
      rewrite <- uint_val_zero.
      cbn [literal_val].
      replace (match Pos.to_uint p with
               | Decimal.Nil => "0"%string
               | _ => NilEmpty.string_of_uint (Pos.to_uint p)
               end) with (NilEmpty.string_of_uint (Pos.to_uint p))
        by (destruct (Pos.to_uint p); try reflexivity; contradiction).
      rewrite (digits_val_uint (Pos.to_uint p) 0 false) by (right; exact Hnn).
      reflexivity. }
  rewrite Hlit, DecimalZ.of_to. reflexivity.
Qed.

Lemma str_of_int_inj (a b : Z) : str_of_int a = str_of_int b -> a = b.
Proof.
  intros H. pose proof (int_of_str a) as Ha. rewrite H, int_of_str in Ha.
  inversion Ha. reflexivity.
Qed.

(** X13. The makespan written in a row reads back as the makespan, and ["N/A"]
    is no integer. *)
Theorem makespan_str_reads_back (makespan : option Z) :
  match makespan with
  | Some v => int (makespan_str makespan) = Return v
  | None => is_return (int (makespan_str makespan)) = false
  end.
Proof. destruct makespan as [v|]; [apply int_of_str | reflexivity]. Qed.

Lemma range_NoDup (n : Z) : NoDup (range n).
Proof.
  unfold range. apply Finite.Injective_map_NoDup; [| apply seq_NoDup].
  intros a b H. lia.
Qed.

Lemma getitem_nth_error {A} (l : list A) (k : nat) (x : A) :
  getitem l (Z.of_nat k) = Return x -> nth_error l k = Some x.
Proof.
  unfold getitem. destruct (Z.ltb_spec (Z.of_nat k) 0); [lia |].
  destruct ((0 <=? Z.of_nat k) && (Z.of_nat k <? len l)); [| discriminate].
  rewrite Nat2Z.id. destruct (nth_error l k); [| discriminate].
  intros Hret. inversion Hret. reflexivity.
Qed.

Lemma skipn_nth_error {A} (l : list A) :
  forall (k : nat) (x : A),
    nth_error l k = Some x -> skipn k l = x :: skipn (S k) l.
Proof.
  induction l as [|y l IH]; intros k x H.
  - destruct k; discriminate.
  - destruct k as [|k]; simpl in *.
    + inversion H. reflexivity.
    + apply IH. exact H.
Qed.

(** The items a comprehension over consecutive indices reads from a list
    are a segment of the list. *)
Lemma items_are_segment {A B} (f : B -> A) (l : list A) (k : nat) :
  forall (a : nat) (ys : list B),
    Forall2 (fun t y => getitem l t = Return (f y))
            (map Z.of_nat (seq a k)) ys ->
    map f ys = firstn k (skipn a l).
Proof.
  induction k as [|k IH]; intros a ys H; simpl in H.
  - inversion H. reflexivity.
  - inversion H as [|t y ts ys' Hty Hall]; subst.
    apply getitem_nth_error, skipn_nth_error in Hty.
    rewrite Hty. cbn [map firstn]. f_equal. apply IH. exact Hall.
Qed.

(** X12. The interval variables are named [T1], [T2], ... in the order of the
    tasks, no two alike, and sized by the durations. *)
Theorem task_names_distinct (n : Z) (durations : list Z)
    (tasks : list interval_var) :
  make_tasks n durations = Return tasks ->
  map iv_name tasks
  = map (fun t => ("T" ++ str_of_int (t + 1))%string) (range n) /\
  NoDup (map iv_name tasks) /\
  map iv_size tasks = firstn (Z.to_nat n) durations.
Proof.
  intros H. unfold make_tasks in H.
  apply comprehension_Return in H.
  assert (Hnames : map iv_name tasks
                   = map (fun t => ("T" ++ str_of_int (t + 1))%string) (range n)).
  { induction H as [|t v ts vs Htv Hall IH]; [reflexivity |].
    simpl. rewrite IH.
    destruct (getitem durations t); simpl in Htv; [| discriminate].
    inversion Htv. reflexivity. }
  split; [exact Hnames | split].
  - rewrite Hnames. apply Finite.Injective_map_NoDup; [| apply range_NoDup].
    intros a b Hab. inversion Hab as [Hstr].
    apply str_of_int_inj in Hstr. lia.
  - apply (items_are_segment iv_size durations (Z.to_nat n) 0%nat tasks).
    fold (range n).
    eapply Forall2_impl; [| exact H].
    intros t v Htv. cbv beta in Htv.
    destruct (getitem durations t); simpl in Htv; [| discriminate].
    inversion Htv. reflexivity.
Qed.

Lemma task_names_distinct_witness :
  map iv_name [{| iv_name := "T1"; iv_size := 3 |};
               {| iv_name := "T2"; iv_size := 2 |}]
  = map (fun t => ("T" ++ str_of_int (t + 1))%string) (range 2) /\
  NoDup (map iv_name [{| iv_name := "T1"; iv_size := 3 |};
                      {| iv_name := "T2"; iv_size := 2 |}]) /\
  map iv_size [{| iv_name := "T1"; iv_size := 3 |};
               {| iv_name := "T2"; iv_size := 2 |}]
  = firstn (Z.to_nat 2) [3; 2; 7].
Proof.
  exact (task_names_distinct 2 [3; 2; 7] _ eq_refl).
Defined.

(* ================================================================== *)
(** * The rows of the result file *)







Section LoopOverSolve.

Variable cp_solve : solver.
Variable clock : nat -> Q.
Variable fs : string -> option string.





End LoopOverSolve.

(* ================================================================== *)
(** * The order of the files *)

Lemma compare_Eq (x y : string) :
  OrdersEx.String_as_OT.compare x y = Eq -> x = y.
Proof.
  intros E. pose proof (OrdersEx.String_as_OT.compare_spec x y) as H.
  rewrite E in H. inversion H. assumption.
Qed.

Lemma compare_refl (x : string) : OrdersEx.String_as_OT.compare x x = Eq.
Proof.
  pose proof (OrdersEx.String_as_OT.compare_spec x x) as H.
  inversion H as [Heq E | Hlt E | Hlt E]; try reflexivity;
    exfalso; exact (StrictOrder_Irreflexive (R := OrdersEx.String_as_OT.lt)
                      x Hlt).
Qed.

Lemma compare_Lt_trans (x y z : string) :
  OrdersEx.String_as_OT.compare x y = Lt ->
  OrdersEx.String_as_OT.compare y z = Lt ->
  OrdersEx.String_as_OT.compare x z = Lt.
Proof.
  exact (StrictOrder_Transitive (R := OrdersEx.String_as_OT.lt) x y z).
Qed.

Lemma parts_lt_irrefl (a : list string) : parts_lt a a = false.
Proof.
  induction a as [|x a IH]; simpl; [reflexivity |].
  rewrite compare_refl. exact IH.
Qed.

Lemma parts_lt_trans (a : list string) :
  forall b c, parts_lt a b = true -> parts_lt b c = true -> parts_lt a c = true.
Proof.
  induction a as [|x a IH]; intros [|y b] [|z c] Hab Hbc; simpl in *;
    try discriminate; try reflexivity.
  destruct (OrdersEx.String_as_OT.compare x y) eqn:Exy; try discriminate;
    destruct (OrdersEx.String_as_OT.compare y z) eqn:Eyz; try discriminate.
  - apply compare_Eq in Exy, Eyz. subst. rewrite compare_refl.
    apply (IH b c); assumption.
  - apply compare_Eq in Exy. subst. rewrite Eyz. reflexivity.
  - apply compare_Eq in Eyz. subst. rewrite Exy. reflexivity.
  - rewrite (compare_Lt_trans x y z Exy Eyz). reflexivity.
Qed.

Lemma path_lt_asym (p q : string) : path_lt p q = true -> path_lt q p = false.
Proof.
  unfold path_lt. intros H.
  destruct (parts_lt (path_parts q) (path_parts p)) eqn:E; [| reflexivity].
  pose proof (parts_lt_trans _ _ _ H E) as Hpp.
  rewrite parts_lt_irrefl in Hpp. discriminate.
Qed.

Lemma path_lt_trans (p q r : string) :
  path_lt p q = true -> path_lt q r = true -> path_lt p r = true.
Proof. unfold path_lt. apply parts_lt_trans. Qed.

Lemma insert_path_perm (x : string) (l : list string) :
  Permutation (insert_path x l) (x :: l).
Proof.
  induction l as [|y l IH]; simpl; [apply Permutation_refl |].
  destruct (path_lt x y); [apply Permutation_refl |].
  apply perm_trans with (y :: x :: l); [apply perm_skip; exact IH | apply perm_swap].
Qed.

Lemma insert_path_in_order (x : string) (l : list string) :
  in_order l -> in_order (insert_path x l).
Proof.
  unfold in_order. induction l as [|y l IH]; intros Hs; simpl.
  - constructor; constructor.
  - apply StronglySorted_inv in Hs as [Hl Hy].
    destruct (path_lt x y) eqn:Exy.
    + constructor; [constructor; assumption |].
      constructor; [apply path_lt_asym; exact Exy |].
      rewrite Forall_forall in *. intros z Hz.
      destruct (path_lt z x) eqn:Ezx; [| reflexivity].
      rewrite <- (Hy z Hz). symmetry. apply (path_lt_trans z x y); assumption.
    + constructor; [apply IH; exact Hl |].
      rewrite Forall_forall in *. intros z Hz.
      apply (Permutation_in _ (insert_path_perm x l)) in Hz.
      destruct Hz as [<- | Hz]; [exact Exy | apply Hy; exact Hz].
Qed.

Lemma sort_paths_from (l : list string) :
  forall sorted,
    in_order sorted ->
    Permutation (fold_left (fun s x => insert_path x s) l sorted) (sorted ++ l) /\
    in_order (fold_left (fun s x => insert_path x s) l sorted).
Proof.
  induction l as [|x l IH]; intros sorted Hs; simpl.
  - rewrite app_nil_r. split; [apply Permutation_refl | exact Hs].
  - destruct (IH (insert_path x sorted) (insert_path_in_order x sorted Hs))
      as [Hp Ho].
    split; [| exact Ho].
    apply perm_trans with (insert_path x sorted ++ l); [exact Hp |].
    apply perm_trans with ((x :: sorted) ++ l).
    + apply Permutation_app_tail, insert_path_perm.
    + simpl. apply Permutation_middle.
Qed.

(** [sort] keeps the paths and puts them in order. *)
Theorem sort_paths_sorts (l : list string) :
  Permutation (sort_paths l) l /\ in_order (sort_paths l).
Proof.
  unfold sort_paths.
  destruct (sort_paths_from l [] ltac:(constructor)) as [Hp Ho].
  split; assumption.
Qed.

(* ================================================================== *)
(** * Which files [main] processes *)

Lemma find_start_None (files : list string) :
  find_start files = None <->
  forall p, In p files -> path_name p <> start_file.
Proof.
  induction files as [|f files IH]; simpl.
  - split; [intros _ p [] | reflexivity].
  - destruct (String.eqb_spec (path_name f) start_file) as [E|E].
    + split; [discriminate |]. intros H. exfalso.
      exact (H f (or_introl eq_refl) E).
    + destruct (find_start files) as [k|]; simpl.
      * split; [discriminate |]. intros H.
        assert (Hk : Some k = None)
          by (apply (proj2 IH); intros p Hp; apply H; right; exact Hp).
        discriminate.
      * split; [| reflexivity]. intros _ p [<- | Hp]; [exact E |].
        apply (proj1 IH eq_refl). exact Hp.
Qed.




Section MainFacts.

Variable cp_solve : solver.
Variable clock : nat -> Q.
Variable fs : string -> option string.
Variable getcwd : string.
Variable listdir : list string.

Lemma print_items_frame (items : list string) :
  forall w,
    fst (print_items items w) = Return tt /\
    csv_rows (snd (print_items items w)) = csv_rows w /\
    clock_reads (snd (print_items items w)) = clock_reads w.
Proof.
  induction items as [|item rest IH]; intros w; simpl.
  - repeat split.
  - unfold io_bind, print. simpl.
    match goal with
    | |- context [print_items rest ?w0] => exact (IH w0)
    end.
Qed.

(** X16. Without a file named [j9010_1.data] in the listing (and so with an empty
    listing) [main] returns before it opens the result file: no row is
    written, the rows the file had are kept, and no instance is solved, the
    clock is not read. *)
Theorem main_without_start_file
    (solve : string -> io (option Z * string * Q)) (globbed : list string)
    (w : World) :
  (forall p, In p globbed -> path_name p <> start_file) ->
  fst (main_before_upload solve getcwd listdir globbed w) = Return tt /\
  csv_rows (snd (main_before_upload solve getcwd listdir globbed w))
  = csv_rows w /\
  clock_reads (snd (main_before_upload solve getcwd listdir globbed w))
  = clock_reads w.
Proof.
  intros Hnone. unfold main_before_upload.
  destruct globbed as [|g rest].
  - unfold io_bind, print. simpl.
    match goal with
    | |- context [print_items listdir ?w0] => exact (print_items_frame listdir w0)
    end.
  - assert (Hfind : find_start (sort_paths (g :: rest)) = None).
    { apply find_start_None. intros p Hp. apply Hnone.
      exact (Permutation_in _ (proj1 (sort_paths_sorts (g :: rest))) Hp). }
    rewrite Hfind. unfold print. simpl. repeat split.
Qed.


End MainFacts.

Lemma main_without_start_file_witness :
  fst (main_before_upload (Samples.fails_on "x") "/home" ["data"; "result"]
         ["data/j301_1.data"; "data/j601_1.data"] Samples.fresh) = Return tt /\
  csv_rows (snd (main_before_upload (Samples.fails_on "x") "/home"
                   ["data"; "result"]
                   ["data/j301_1.data"; "data/j601_1.data"] Samples.fresh))
  = [] /\
  clock_reads (snd (main_before_upload (Samples.fails_on "x") "/home"
                      ["data"; "result"]
                      ["data/j301_1.data"; "data/j601_1.data"] Samples.fresh))
  = 0%nat.
Proof.
  apply (main_without_start_file "/home" ["data"; "result"]
           (Samples.fails_on "x")
           ["data/j301_1.data"; "data/j601_1.data"] Samples.fresh).
  intros p [<- | [<- | []]]; vm_compute; discriminate.
Defined.


(** The listing of the sample directory, sorted and processed. *)
Example main_on_listing :
  sort_paths MoreSamples.listing
  = ["data/j301_1.data"; "data/j9010_1.data"; "data/j9010_2.data";
     "data/j9011_1.data"] /\
  csv_rows (snd (main_before_upload
                   (solve_rcpsp Samples.proves_optimal_5 Samples.ticking
                      Samples.sample_fs) "/home" [] MoreSamples.listing
                   Samples.fresh))
  = [["file name"; "Model constraint"; "Status"; "Solve time (second)"];
     ["j9010_1.data"; "5"; "optimal"; "1.00"];
     ["j9010_2.data"; "5"; "optimal"; "1.00"];
     ["j9011_1.data"; "N/A"; "error"; "1.00"]].
Proof. split; vm_compute; reflexivity. Qed.

(* ================================================================== *)
(** * The statements above on the sample files *)

Lemma error_is_reported_witness :
  exists out,
    solve_rcpsp Samples.proves_optimal_5 Samples.ticking
      MoreSamples.bad_token_fs "data/j9010_8.data" Samples.fresh
    = (Return (None, "error", (Samples.ticking 1 - Samples.ticking 0)%Q),
       {| stdout :=
            [] ++ out
              ++ ["Error solving data/j9010_8.data: invalid literal for int() with base 10: 'one'"];
          csv_rows := [];
          clock_reads := 2 |}).
Proof.
  exact (error_is_reported Samples.proves_optimal_5 Samples.ticking
           MoreSamples.bad_token_fs "data/j9010_8.data"
           MoreSamples.two_tasks_bad_token Samples.fresh
           (Exn ValueError "invalid literal for int() with base 10: 'one'")
           eq_refl (or_introl eq_refl)).
Defined.

Lemma solution_without_objective_witness :
  exists status solve_time,
    fst (solve_rcpsp MoreSamples.solution_without_value Samples.ticking
           Samples.sample_fs "data/j9010_1.data" Samples.fresh)
    = Return (None, status, solve_time) /\
    (status = "optimal" \/ status = "feasible") /\
    In "Warning: Solution found but no objective value for j9010_1.data"
       (stdout (snd (solve_rcpsp MoreSamples.solution_without_value
                       Samples.ticking Samples.sample_fs "data/j9010_1.data"
                       Samples.fresh))).
Proof.
  exact (solution_without_objective MoreSamples.solution_without_value
           Samples.ticking Samples.sample_fs "data/j9010_1.data" Samples.fresh
           {| is_solution := true; get_solve_status := "Feasible";
              get_objective_values := Some [] |}
           eq_refl eq_refl eq_refl).
Defined.

Lemma trailing_lines_ignored_witness :
  instance_of_text Samples.two_tasks
  = instance_of_text MoreSamples.two_tasks_trailing /\
  exists makespan status t t',
    fst (solve_rcpsp Samples.proves_optimal_5 Samples.ticking
           MoreSamples.trailing_fs "data/j9010_1.data" Samples.fresh)
    = Return (makespan, status, t) /\
    fst (solve_rcpsp Samples.proves_optimal_5 Samples.ticking
           MoreSamples.trailing_fs "data/j9010_7.data" Samples.fresh)
    = Return (makespan, status, t').
Proof.
  apply (trailing_lines_ignored Samples.proves_optimal_5 Samples.ticking
           Samples.ticking MoreSamples.trailing_fs
           "data/j9010_1.data" "data/j9010_7.data"
           Samples.two_tasks MoreSamples.two_tasks_trailing
           Samples.fresh Samples.fresh eq_refl eq_refl eq_refl eq_refl).
  intros n r t Hh Ht. vm_compute in Hh. inversion Hh; subst n r.
  destruct t as [|[|t]]; [reflexivity | reflexivity | simpl in Ht; lia].
Defined.
